(** * property-manager-api: validation, weather enrichment and the
      property workflow, embedded from the TypeScript sources.

    The development follows the layout of the repository:
    - [JS]: the part of the JavaScript runtime that the services rely on
      (strings, IEEE 754 numbers, [parseFloat], [Math], 32-bit operators);
    - [CreatePropertyInput], [WeatherData], [Property], [PropertyFilters],
      [US_STATES]: the declarations of [types.ts];
    - [ValidationService], [WeatherstackService], [PropertyService]: the
      three service classes, method by method, as computations that may
      throw and that record the calls they make to the weather adapter, the
      HTTP client and the storage client;
    - [Memory]: an in-memory storage client and a scripted host, on which
      the services run on concrete inputs;
    - the properties of each service, in the order of the sources.

    Strings are sequences of code units below 256.  [toLowerCase] and
    [toUpperCase] follow the Unicode case mappings of these code units:
    the ASCII and the accented letters, and U+00DF, whose upper-case form
    is the two units of "SS".  The upper-case forms of U+00B5 and U+00FF
    are code units above 255; [upperCasesWithin] singles out the strings
    that have neither.  Numbers are binary64 floats, Rocq's primitive floats;
    integers that the code keeps well below 2^53 (hash values, limits, epoch
    times) are computed in [Z].  Output written with [console.log] is not
    part of the model. *)

From Stdlib Require Import ZArith List String Ascii Bool Lia.
From Stdlib Require Import DecimalString Sorted Permutation.
From Stdlib Require Import Floats.
Import ListNotations.
Local Open Scope string_scope.
Local Open Scope Z_scope.

(* ================================================================== *)
(** * The JavaScript runtime *)
(* ================================================================== *)

Module JS.

(** ** Strings *)

Definition charCode (c : ascii) : Z := Z.of_nat (nat_of_ascii c).

(** WhiteSpace and LineTerminator code units below 256: TAB, LF, VT, FF, CR,
    SP and NBSP. *)
Definition isWhiteSpace (c : ascii) : bool :=
  let n := charCode c in
  ((9 <=? n) && (n <=? 13)) || (n =? 32) || (n =? 160).

Fixpoint trimStart (s : string) : string :=
  match s with
  | EmptyString => EmptyString
  | String c s' => if isWhiteSpace c then trimStart s' else s
  end.

Fixpoint trimEnd (s : string) : string :=
  match s with
  | EmptyString => EmptyString
  | String c s' =>
      match trimEnd s' with
      | EmptyString => if isWhiteSpace c then EmptyString else String c EmptyString
      | t => String c t
      end
  end.

(** [String.prototype.trim] *)
Definition trim (s : string) : string := trimEnd (trimStart s).

(** The simple upper-case mapping: a-z, and U+00E0 to U+00FE without the
    division sign U+00F7, move down by 32. *)
Definition upperChar (c : ascii) : ascii :=
  let n := nat_of_ascii c in
  if ((97 <=? n) && (n <=? 122)
      || (224 <=? n) && (n <=? 254) && negb (n =? 247))%nat
  then ascii_of_nat (n - 32) else c.

(** The simple lower-case mapping: A-Z, and U+00C0 to U+00DE without the
    multiplication sign U+00D7, move up by 32. *)
Definition lowerChar (c : ascii) : ascii :=
  let n := nat_of_ascii c in
  if ((65 <=? n) && (n <=? 90)
      || (192 <=? n) && (n <=? 222) && negb (n =? 215))%nat
  then ascii_of_nat (n + 32) else c.

Fixpoint mapChars (f : ascii -> ascii) (s : string) : string :=
  match s with
  | EmptyString => EmptyString
  | String c s' => String (f c) (mapChars f s')
  end.

(** The upper-case form of one code unit: U+00DF has no capital of its own
    and becomes "SS"; every other unit has the one unit of [upperChar]. *)
Definition upperUnits (c : ascii) : string :=
  if (nat_of_ascii c =? 223)%nat then "SS" else String (upperChar c) EmptyString.

(** [String.prototype.toUpperCase] *)
Fixpoint toUpperCase (s : string) : string :=
  match s with
  | EmptyString => EmptyString
  | String c s' => upperUnits c ++ toUpperCase s'
  end.

(** [String.prototype.toLowerCase] *)
Definition toLowerCase : string -> string := mapChars lowerChar.



(** [s.split('')]: the code units of [s], one per element. *)
Definition split_chars (s : string) : list ascii := list_ascii_of_string s.

(** [s.length === 0] *)
Definition isEmpty (s : string) : bool :=
  match s with EmptyString => true | _ => false end.

(** Truthiness of an optional string: [undefined] and [''] are falsy. *)
Definition truthy (o : option string) : bool :=
  match o with
  | None => false
  | Some s => negb (isEmpty s)
  end.

(** [o || ''] for an optional string. *)
Definition orEmpty (o : option string) : string :=
  match o with
  | None => EmptyString
  | Some s => s
  end.

(** [xs.join(sep)] *)
Definition join (sep : string) (xs : list string) : string := String.concat sep xs.

(** [xs.includes(x)] on an array of strings. *)
Definition includes (xs : list string) (x : string) : bool :=
  existsb (String.eqb x) xs.

Definition isDigit (c : ascii) : bool :=
  let n := charCode c in (48 <=? n) && (n <=? 57).

Definition digitValue (c : ascii) : Z := charCode c - 48.

(** [/^\d{5}$/.test(s)]: exactly five ASCII digits. *)
Definition isFiveDigits (s : string) : bool :=
  match s with
  | String a (String b (String c (String d (String e EmptyString)))) =>
      isDigit a && isDigit b && isDigit c && isDigit d && isDigit e
  | _ => false
  end.

(** [startsWith] *)
Fixpoint startsWith (p s : string) : bool :=
  match p, s with
  | EmptyString, _ => true
  | String a p', String b s' => Ascii.eqb a b && startsWith p' s'
  | String _ _, EmptyString => false
  end.

(** [s.slice(0, n)] for [n] within or beyond the length. *)
Fixpoint slice0 (n : nat) (s : string) : string :=
  match n, s with
  | S k, String c s' => String c (slice0 k s')
  | _, _ => EmptyString
  end.

(** [s.replace(a, b)] for one-character patterns: the first occurrence only. *)
Fixpoint replaceFirst (a b : ascii) (s : string) : string :=
  match s with
  | EmptyString => EmptyString
  | String c s' => if Ascii.eqb c a then String b s' else String c (replaceFirst a b s')
  end.

(** Decimal text of an integer, as in a template literal. *)
Definition intToString (z : Z) : string := NilZero.string_of_int (Z.to_int z).

(** ** Numbers *)

Definition number : Type := float.

(** The Number nearest to an integer (exact below 2^53). *)
Definition ofZ (z : Z) : number := SF2Prim (binary_normalize prec emax z 0 false).

Definition isNaN (x : number) : bool := PrimFloat.is_nan x.

(** [Number.isFinite] *)
Definition isFinite (x : number) : bool :=
  negb (PrimFloat.is_nan x) && negb (PrimFloat.is_infinity x).

(** [Math.floor] *)
Definition Math_floor (x : number) : number :=
  match Prim2SF x with
  | S754_finite s m e =>
      if 0 <=? e then x
      else
        let n := Z.shiftr (cond_Zopp s (Zpos m)) (- e) in
        if n =? 0 then PrimFloat.zero else ofZ n
  | _ => x
  end.

(** [Math.round]: the nearest integer, ties towards +oo; results in
    [-0.5, 0) keep the sign of the argument. *)
Definition Math_round (x : number) : number :=
  match Prim2SF x with
  | S754_finite s m e =>
      if 0 <=? e then x
      else
        let n := Z.shiftr (2 * cond_Zopp s (Zpos m) + Z.shiftl 1 (- e)) (1 - e) in
        if n =? 0 then (if s then PrimFloat.neg_zero else PrimFloat.zero) else ofZ n
  | _ => x
  end.

(** ** 32-bit integer operators *)

Definition ToInt32 (z : Z) : Z :=
  let m := z mod 2 ^ 32 in
  if m <? 2 ^ 31 then m else m - 2 ^ 32.

(** [a << n] *)
Definition shl (a n : Z) : Z := ToInt32 (Z.shiftl (ToInt32 a) (n mod 32)).

(** [a & b] *)
Definition band (a b : Z) : Z := Z.land (ToInt32 a) (ToInt32 b).

(** ** parseFloat *)

(** The longest run of DecimalDigits at the head of [s], accumulated onto
    [acc]: the value, the number of digits read and the rest. *)
Fixpoint decimalDigits (s : string) (acc : Z) (n : Z) : Z * Z * string :=
  match s with
  | String c s' =>
      if isDigit c then decimalDigits s' (10 * acc + digitValue c) (n + 1)
      else (acc, n, s)
  | EmptyString => (acc, n, s)
  end.

Definition signedInteger (s : string) : option Z :=
  let '(neg, r) :=
    match s with
    | String "+" r => (false, r)
    | String "-" r => (true, r)
    | _ => (false, s)
    end in
  let '(v, n, _) := decimalDigits r 0 0 in
  if n =? 0 then None else Some (if neg then - v else v).

(** The value of the longest ExponentPart at the head of [s]; 0 when [s]
    does not start with one. *)
Definition exponentPart (s : string) : Z :=
  match s with
  | String c r =>
      if Ascii.eqb c "e" || Ascii.eqb c "E" then
        match signedInteger r with
        | Some v => v
        | None => 0
        end
      else 0
  | EmptyString => 0
  end.

Inductive Unsigned : Type :=
| UInfinity
| UDecimal (mantissa : Z) (exponent10 : Z).

(** The longest prefix of [s] that is a StrUnsignedDecimalLiteral. *)
Definition strUnsignedDecimalLiteral (s : string) : option Unsigned :=
  if startsWith "Infinity" s then Some UInfinity
  else
    let '(i, ni, r) := decimalDigits s 0 0 in
    match r with
    | String "." r1 =>
        let '(m, nf, r2) := decimalDigits r1 i 0 in
        if (ni =? 0) && (nf =? 0) then None
        else Some (UDecimal m (exponentPart r2 - nf))
    | _ =>
        if ni =? 0 then None else Some (UDecimal i (exponentPart r))
    end.

(** The Number for the mathematical value [m * 10^e], [m >= 0], rounded to
    nearest, ties to even. *)
Definition roundMV (m e : Z) : number :=
  SF2Prim
    match m with
    | Zpos _ =>
        if 0 <=? e then binary_normalize prec emax (m * 10 ^ e) 0 false
        else
          let '(q, e', l) := SFdiv_core_binary prec emax m 0 (10 ^ (- e)) 0 in
          binary_round_aux prec emax false q e' l
    | _ => S754_zero false
    end.

Definition parseFloat (s : string) : number :=
  let t := trimStart s in
  let '(neg, u) :=
    match t with
    | String "+" r => (false, r)
    | String "-" r => (true, r)
    | _ => (false, t)
    end in
  match strUnsignedDecimalLiteral u with
  | None => PrimFloat.nan
  | Some UInfinity => if neg then PrimFloat.neg_infinity else PrimFloat.infinity
  | Some (UDecimal m e) => if neg then PrimFloat.opp (roundMV m e) else roundMV m e
  end.

End JS.

Import JS.

(* ================================================================== *)
(** * types.ts *)
(* ================================================================== *)

(** The four-field submission.  The fields are declared [string]; the
    services guard every access ([!input.city], [input.city?.trim()]), so a
    field that is absent at run time is [None]. *)
Module CreatePropertyInput.
Record t : Type := mk {
  city : option string;
  street : option string;
  state : option string;
  zipCode : option string
}.
End CreatePropertyInput.

Module WeatherData.
Record Request : Type := mkRequest {
  type : string;
  query : string;
  language : string;
  unit : string
}.

(** A field that the types declare as text.  The provider sends text; the
    synthetic generator reads the field from an object literal, where the
    key can also find a member of [Object.prototype], which is not text
    (see [WeatherstackService.lookup]). *)
Inductive Text : Type :=
| Str (s : string)
| PrototypeMember (key : string).

Record Location : Type := mkLocation {
  name : string;
  country : string;
  region : string;
  lat : string;
  lon : string;
  timezone_id : Text;
  localtime : string;
  localtime_epoch : number;
  utc_offset : Text
}.

Record Current : Type := mkCurrent {
  observation_time : string;
  temperature : number;
  weather_code : number;
  weather_icons : list string;
  weather_descriptions : list string;
  wind_speed : number;
  wind_degree : number;
  wind_dir : string;
  pressure : number;
  precip : number;
  humidity : number;
  cloudcover : number;
  feelslike : number;
  uv_index : number;
  visibility : number;
  is_day : string
}.

Record t : Type := mk {
  request : Request;
  location : Location;
  current : Current
}.
End WeatherData.

(** The persisted entity; the two timestamps are epoch milliseconds. *)
Module Property.
Record t : Type := mk {
  id : string;
  city : string;
  street : string;
  state : string;
  zipCode : string;
  lat : number;
  long : number;
  weatherData : WeatherData.t;
  createdAt : Z;
  updatedAt : Z
}.
End Property.

Inductive SortBy : Type := createdAt | city | state.
Inductive SortOrder : Type := asc | desc.

(** Every field of the filter object is optional. *)
Module PropertyFilters.
Record t : Type := mk {
  city : option string;
  state : option string;
  zipCode : option string;
  sortBy : option SortBy;
  sortOrder : option SortOrder;
  limit : option Z;
  offset : option Z
}.

(** The empty object [{}]. *)
Definition empty : t := mk None None None None None None None.
End PropertyFilters.

(** Modelled from the spec: [types.ts], which declares [US_STATES], is not
    among the sources.  The spec calls it "a fixed enumerated set of valid US
    state/territory abbreviations"; the tests accept ["AZ"] and reject
    ["XX"], and the error message cites CA, NY and TX.  The list below is the
    fifty states, the federal district and the five territories, in upper
    case. *)
Definition US_STATES : list string :=
  [ "AL"; "AK"; "AZ"; "AR"; "CA"; "CO"; "CT"; "DE"; "FL"; "GA";
    "HI"; "ID"; "IL"; "IN"; "IA"; "KS"; "KY"; "LA"; "ME"; "MD";
    "MA"; "MI"; "MN"; "MS"; "MO"; "MT"; "NE"; "NV"; "NH"; "NJ";
    "NM"; "NY"; "NC"; "ND"; "OH"; "OK"; "OR"; "PA"; "RI"; "SC";
    "SD"; "TN"; "TX"; "UT"; "VT"; "VA"; "WA"; "WV"; "WI"; "WY";
    "DC"; "AS"; "GU"; "MP"; "PR"; "VI" ].
Arguments US_STATES : simpl never.

(* ================================================================== *)
(** * services/ValidationService.ts *)
(* ================================================================== *)

Module ValidationService.
Import CreatePropertyInput.

Record ValidationResult : Type := mkResult {
  isValid : bool;
  errors : list string
}.

Definition cityError : string := "City is required".
Definition streetError : string := "Street is required".
Definition stateError : string :=
  "Valid US state abbreviation is required (e.g., CA, NY, TX)".
Definition zipCodeError : string := "Valid 5-digit zip code is required".

(** [!x || x.trim().length === 0] *)
Definition blank (x : option string) : bool :=
  negb (truthy x) || isEmpty (trim (orEmpty x)).

(** [errors.push(msg)] under a condition. *)
Definition pushIf (cond : bool) (msg : string) (errors : list string) : list string :=
  if cond then errors ++ [msg] else errors.

Definition validatePropertyInput (input : t) : ValidationResult :=
  let errors := [] in
  let errors := pushIf (blank (city input)) cityError errors in
  let errors := pushIf (blank (street input)) streetError errors in
  let errors :=
    pushIf (negb (truthy (state input)) || negb (includes US_STATES (orEmpty (state input))))
           stateError errors in
  let errors :=
    pushIf (negb (truthy (zipCode input)) || negb (isFiveDigits (orEmpty (zipCode input))))
           zipCodeError errors in
  {| isValid := (List.length errors =? 0)%nat; errors := errors |}.

(** [x?.trim() || ''] *)
Definition trimmed (x : option string) : string :=
  orEmpty (option_map trim x).

Definition sanitizeInput (input : t) : t :=
  {| city := Some (trimmed (city input));
     street := Some (trimmed (street input));
     state := Some (trimmed (option_map toUpperCase (state input)));
     zipCode := Some (trimmed (zipCode input)) |}.

End ValidationService.

(* ================================================================== *)
(** * Effects: thrown values, collaborators and the trace of calls *)
(* ================================================================== *)

(** What a [throw] or a rejected promise carries. *)
Inductive Thrown : Type :=
| Error (message : string)
| AxiosError (code : option string) (status : option Z) (message : string)
| NotAnError.

(** [error instanceof Error] *)
Definition instanceofError (e : Thrown) : bool :=
  match e with
  | NotAnError => false
  | _ => true
  end.

(** [error.message] of an [Error]. *)
Definition message (e : Thrown) : string :=
  match e with
  | Error m => m
  | AxiosError _ _ m => m
  | NotAnError => ""
  end.

Inductive Completion (A : Type) : Type :=
| Returned (a : A)
| Threw (e : Thrown).
Arguments Returned {A} a.
Arguments Threw {A} e.

(** The HTTP client: the request configuration of [axios.get] and the part of
    the response body that the adapter inspects. *)
Module Axios.
Record Params : Type := mkParams {
  access_key : string;
  query : string;
  units : string
}.

Record Config : Type := mkConfig {
  params : Params;
  timeout : Z
}.

Record ApiError : Type := mkApiError {
  code : Z;
  info : string
}.

(** [response.data].  The sections that the adapter tests for presence are
    optional; the request echo is returned as it comes. *)
Record ResponseData : Type := mkData {
  error : option ApiError;
  success : option bool;
  request : WeatherData.Request;
  location : option WeatherData.Location;
  current : option WeatherData.Current
}.
End Axios.

(** The storage client: the arguments of the five operations on the
    [property] table. *)
Module Prisma.
Inductive QueryMode : Type := default | insensitive.

Record StringFilter : Type := mkStringFilter {
  contains : string;
  mode : QueryMode
}.

Record WhereInput : Type := mkWhere {
  city : option StringFilter;
  state : option string;
  zipCode : option string
}.

(** [{}] *)
Definition noWhere : WhereInput := mkWhere None None None.

(** [{ [sortBy]: sortOrder }] *)
Record OrderBy : Type := mkOrderBy {
  field : SortBy;
  direction : SortOrder
}.

Record FindManyArgs : Type := mkFindMany {
  where_ : WhereInput;
  orderBy : OrderBy;
  take : Z;
  skip : Z
}.

Record CreateData : Type := mkCreate {
  data_city : string;
  data_street : string;
  data_state : string;
  data_zipCode : string;
  data_lat : number;
  data_long : number;
  data_weatherData : WeatherData.t
}.

(** [prisma.property]: each operation acts on the state of the outside
    world and resolves or rejects. *)
Record Client (S : Type) : Type := mkClient {
  create : CreateData -> S -> Completion Property.t * S;
  findMany : FindManyArgs -> S -> Completion (list Property.t) * S;
  findUnique : string -> S -> Completion (option Property.t) * S;
  delete : string -> S -> Completion Property.t * S;
  count : WhereInput -> S -> Completion Z * S
}.
Arguments create {S} _ _ _.
Arguments findMany {S} _ _ _.
Arguments findUnique {S} _ _ _.
Arguments delete {S} _ _ _.
Arguments count {S} _ _ _.
End Prisma.

(** What the runtime provides besides storage. *)
Record Host (S : Type) : Type := mkHost {
  axios_get : string -> Axios.Config -> S -> Completion Axios.ResponseData * S;
  (** the clock, in epoch milliseconds: [Date.now()] and [new Date()] *)
  Date_now : S -> Z * S;
  (** [Math.random()] *)
  Math_random : S -> number * S;
  (** [Date.prototype.toISOString] *)
  toISOString : Z -> string;
  (** [toLocaleTimeString('en-US', {hour12, hour, minute})] *)
  toLocaleTimeString : Z -> string;
  (** [Number.prototype.toString] *)
  Number_toString : number -> string
}.
Arguments axios_get {S} _ _ _ _.
Arguments Date_now {S} _ _.
Arguments Math_random {S} _ _.
Arguments toISOString {S} _ _.
Arguments toLocaleTimeString {S} _ _.
Arguments Number_toString {S} _ _.

(** A call that leaves the service: the adapter being asked for a snapshot, a
    network request, a storage operation. *)
Inductive Event : Type :=
| WeatherLookup (city state zipCode : string)
| HttpGet (url : string) (config : Axios.Config)
| PrismaCreate (data : Prisma.CreateData)
| PrismaFindMany (args : Prisma.FindManyArgs)
| PrismaFindUnique (id : string)
| PrismaDelete (id : string)
| PrismaCount (where_ : Prisma.WhereInput).

(** The result of running a method from a state of the outside world: how it
    completed, the state it left, and the calls it made, in order. *)
Record Run (S A : Type) : Type := mkRun {
  outcome : Completion A;
  final : S;
  events : list Event
}.
Arguments mkRun {S A} _ _ _.
Arguments outcome {S A} _.
Arguments final {S A} _.
Arguments events {S A} _.

Definition M (S A : Type) : Type := S -> Run S A.

Section Monad.
Context {S : Type}.

Definition ret {A : Type} (a : A) : M S A :=
  fun s => mkRun (Returned a) s [].

Definition throw {A : Type} (e : Thrown) : M S A :=
  fun s => mkRun (Threw e) s [].

Definition bind {A B : Type} (m : M S A) (k : A -> M S B) : M S B :=
  fun s =>
    let r := m s in
    match outcome r with
    | Returned a =>
        let r' := k a (final r) in
        mkRun (outcome r') (final r') (events r ++ events r')
    | Threw e => mkRun (Threw e) (final r) (events r)
    end.

(** [try { body } catch (error) { handler }] *)
Definition tryCatch {A : Type} (body : M S A) (handler : Thrown -> M S A) : M S A :=
  fun s =>
    let r := body s in
    match outcome r with
    | Returned a => r
    | Threw e =>
        let r' := handler e (final r) in
        mkRun (outcome r') (final r') (events r ++ events r')
    end.

(** A recorded call to a collaborator that may reject. *)
Definition call {A : Type} (ev : Event) (f : S -> Completion A * S) : M S A :=
  fun s => let (c, s') := f s in mkRun c s' [ev].

Definition emit (ev : Event) : M S unit :=
  fun s => mkRun (Returned tt) s [ev].

(** A read of the clock or of the random source. *)
Definition ask {A : Type} (f : S -> A * S) : M S A :=
  fun s => let (a, s') := f s in mkRun (Returned a) s' [].
End Monad.

Declare Scope js_scope.
Delimit Scope js_scope with js.
Notation "x <- m ;; k" := (bind m (fun x => k))
  (at level 100, m at next level, right associativity) : js_scope.
Notation "m ;;; k" := (bind m (fun _ => k))
  (at level 100, right associativity) : js_scope.
Open Scope js_scope.

(* ================================================================== *)
(** * services/WeatherstackService.ts *)
(* ================================================================== *)

Module WeatherstackService.

Record t : Type := mk {
  apiKey : string;
  baseUrl : string
}.

(** [new WeatherstackService(apiKey)] *)
Definition new (apiKey : string) : t :=
  {| apiKey := apiKey; baseUrl := "https://api.weatherstack.com/current" |}.

Record Coordinates : Type := mkCoordinates {
  lat : number;
  long : number
}.

(** One step of the [reduce]: [a = (a << 5) - a + b.charCodeAt(0); return a & a]. *)
Definition hashStep (a : Z) (b : ascii) : Z :=
  let a := shl a 5 - a + charCode b in
  band a a.

Definition cityHash (city : string) : Z :=
  fold_left hashStep (split_chars (toLowerCase city)) 0.

(** [hash % n] keeps the sign of [hash] ([Z.rem]); the quotient by 1000 and
    everything after it is binary64 arithmetic. *)
Definition generateCoordinates (city _state : string) : Coordinates :=
  let hash := cityHash city in
  let lat := (24 + ofZ (Z.abs (Z.rem hash 25000)) / 1000)%float in
  let long := (-125 + ofZ (Z.abs (Z.rem hash 59000)) / 1000)%float in
  {| lat := (Math_round (lat * 1000) / 1000)%float;
     long := (Math_round (long * 1000) / 1000)%float |}.

(** What the property read [table[key]] finds on an object literal whose
    values are text: the literal's own value, a member that the literal
    inherits from [Object.prototype], or [undefined]. *)
Inductive Member : Type :=
| Own (value : string)
| Inherited (key : string)
| Undefined.

(** The names of the members of [Object.prototype]: eleven functions and
    the accessor [__proto__], which yields the prototype itself.  All of
    them are truthy, and none is text. *)
Definition prototypeMembers : list string :=
  [ "constructor"; "hasOwnProperty"; "isPrototypeOf"; "propertyIsEnumerable";
    "toLocaleString"; "toString"; "valueOf"; "__proto__";
    "__defineGetter__"; "__defineSetter__"; "__lookupGetter__"; "__lookupSetter__" ].

(** The literal's own property [key]. *)
Fixpoint own (table : list (string * string)) (key : string) : option string :=
  match table with
  | [] => None
  | (k, v) :: rest => if String.eqb k key then Some v else own rest key
  end.

(** [table[key]]: own properties first, then the prototype. *)
Definition lookup (table : list (string * string)) (key : string) : Member :=
  match own table key with
  | Some v => Own v
  | None => if includes prototypeMembers key then Inherited key else Undefined
  end.

(** [member || fallback] *)
Definition orDefault (member : Member) (fallback : string) : WeatherData.Text :=
  match member with
  | Own v => if isEmpty v then WeatherData.Str fallback else WeatherData.Str v
  | Inherited key => WeatherData.PrototypeMember key
  | Undefined => WeatherData.Str fallback
  end.

Definition getTimezone (state : string) : WeatherData.Text :=
  let timezones :=
    [ ("CA", "America/Los_Angeles"); ("NY", "America/New_York");
      ("FL", "America/New_York"); ("TX", "America/Chicago");
      ("IL", "America/Chicago"); ("AZ", "America/Phoenix") ] in
  orDefault (lookup timezones state) "America/New_York".

Definition getUtcOffset (state : string) : WeatherData.Text :=
  let offsets :=
    [ ("CA", "-8.0"); ("NY", "-5.0"); ("FL", "-5.0");
      ("TX", "-6.0"); ("IL", "-6.0"); ("AZ", "-7.0") ] in
  orDefault (lookup offsets state) "-5.0".

Section Methods.
Context {S : Type} (host : Host S).

(** The object literal is evaluated field by field: two clock reads for
    the location, one for the observation time, then seven draws. *)
Definition getMockWeatherData (self : t) (city state _zipCode : string)
  : M S WeatherData.t :=
  let coordinates := generateCoordinates city state in
  d1 <- ask (Date_now host) ;;
  now <- ask (Date_now host) ;;
  d2 <- ask (Date_now host) ;;
  r1 <- ask (Math_random host) ;;
  r2 <- ask (Math_random host) ;;
  r3 <- ask (Math_random host) ;;
  r4 <- ask (Math_random host) ;;
  r5 <- ask (Math_random host) ;;
  r6 <- ask (Math_random host) ;;
  r7 <- ask (Math_random host) ;;
  ret {| WeatherData.request :=
           {| WeatherData.type := "City";
              WeatherData.query := city ++ ", " ++ state ++ " " ++ _zipCode;
              WeatherData.language := "en";
              WeatherData.unit := "m" |};
         WeatherData.location :=
           {| WeatherData.name := city;
              WeatherData.country := "United States of America";
              WeatherData.region := state;
              WeatherData.lat := Number_toString host (lat coordinates);
              WeatherData.lon := Number_toString host (long coordinates);
              WeatherData.timezone_id := getTimezone state;
              WeatherData.localtime :=
                replaceFirst "T" " " (slice0 16 (toISOString host d1));
              WeatherData.localtime_epoch := Math_floor (ofZ now / 1000)%float;
              WeatherData.utc_offset := getUtcOffset state |};
         WeatherData.current :=
           {| WeatherData.observation_time := toLocaleTimeString host d2;
              WeatherData.temperature := (Math_floor (r1 * 30) + 10)%float;
              WeatherData.weather_code := 113%float;
              WeatherData.weather_icons :=
                [ "https://cdn.worldweatheronline.com/images/wsymbols01_png_64/wsymbol_0001_sunny.png" ];
              WeatherData.weather_descriptions := [ "Sunny" ];
              WeatherData.wind_speed := (Math_floor (r2 * 20) + 5)%float;
              WeatherData.wind_degree := Math_floor (r3 * 360)%float;
              WeatherData.wind_dir := "SW";
              WeatherData.pressure := 1013%float;
              WeatherData.precip := 0%float;
              WeatherData.humidity := (Math_floor (r4 * 50) + 30)%float;
              WeatherData.cloudcover := Math_floor (r5 * 30)%float;
              WeatherData.feelslike := (Math_floor (r6 * 30) + 10)%float;
              WeatherData.uv_index := Math_floor (r7 * 10)%float;
              WeatherData.visibility := 10%float;
              WeatherData.is_day := "yes" |} |}.

(** The [switch] on the provider's error code. *)
Definition apiErrorMessage (query : string) (e : Axios.ApiError) : string :=
  let errorCode := Axios.code e in
  let errorInfo := Axios.info e in
  if errorCode =? 101 then "Invalid Weatherstack API key"
  else if errorCode =? 429 then "API request limit reached for this month"
  else if errorCode =? 601 then "Invalid location: " ++ query
  else if errorCode =? 615 then "Weatherstack API request failed"
  else "Weatherstack API error (" ++ intToString errorCode ++ "): " ++ errorInfo.

(** [error.code === c] and [error.response?.status === n] *)
Definition codeIs (code : option string) (c : string) : bool :=
  match code with
  | Some x => String.eqb x c
  | None => false
  end.

Definition statusIs (status : option Z) (n : Z) : bool :=
  match status with
  | Some x => x =? n
  | None => false
  end.

(** The [catch] block of [getCurrentWeather]: what is thrown in place of
    [error]. *)
Definition translateError (error : Thrown) : Thrown :=
  match error with
  | AxiosError code status msg =>
      if codeIs code "ECONNABORTED" then
        Error "Weatherstack API timeout - please try again"
      else if statusIs status 401 then
        Error "Unauthorized - Invalid Weatherstack API key"
      else if statusIs status 429 then
        Error "Too many requests - Weatherstack rate limit exceeded"
      else if statusIs status 403 then
        Error "Forbidden - Current plan does not support this feature"
      else if statusIs status 404 then
        Error "Weatherstack API endpoint not found"
      else Error ("Weatherstack service error: " ++ msg)
  | _ => error
  end.

(** The [try] / [catch] of [getCurrentWeather], taken when the key is
    not a mock key. *)
Definition liveLookup (self : t) (city state zipCode : string) : M S WeatherData.t :=
  tryCatch
    (let query := city ++ ", " ++ state ++ " " ++ zipCode in
     let config :=
       {| Axios.params :=
            {| Axios.access_key := apiKey self;
               Axios.query := query;
               Axios.units := "m" |};
          Axios.timeout := 15000 |} in
     data <- call (HttpGet (baseUrl self) config)
                  (axios_get host (baseUrl self) config) ;;
     match Axios.error data with
     | Some e => throw (Error (apiErrorMessage query e))
     | None =>
         match Axios.success data with
         | Some false => throw (Error "Weatherstack API returned unsuccessful response")
         | _ =>
             match Axios.current data with
             | None => throw (Error "No current weather data returned from Weatherstack API")
             | Some current =>
                 match Axios.location data with
                 | None => throw (Error "No location data returned from Weatherstack API")
                 | Some location =>
                     ret {| WeatherData.request := Axios.request data;
                            WeatherData.location := location;
                            WeatherData.current := current |}
                 end
             end
         end
     end)
    (fun error => throw (translateError error)).

Definition getCurrentWeather (self : t) (city state zipCode : string)
  : M S WeatherData.t :=
  if String.eqb (apiKey self) "demo_key" || String.eqb (apiKey self) "mock"
  then getMockWeatherData self city state zipCode
  else liveLookup self city state zipCode.

Definition testConnection (self : t) : M S bool :=
  if String.eqb (apiKey self) "demo_key" || String.eqb (apiKey self) "mock"
  then ret true
  else
    tryCatch
      (let config :=
         {| Axios.params :=
              {| Axios.access_key := apiKey self;
                 Axios.query := "New York";
                 Axios.units := "m" |};
            Axios.timeout := 10000 |} in
       data <- call (HttpGet (baseUrl self) config)
                    (axios_get host (baseUrl self) config) ;;
       match Axios.error data with
       | Some _ => ret false
       | None =>
           match Axios.current data, Axios.location data with
           | Some _, Some _ => ret true
           | _, _ => ret false
           end
       end)
      (fun _ => ret false).
End Methods.

End WeatherstackService.

(* ================================================================== *)
(** * services/PropertyService.ts *)
(* ================================================================== *)

Module PropertyService.

Record t (S : Type) : Type := mk {
  prisma : Prisma.Client S;
  weatherService : WeatherstackService.t
}.
Arguments mk {S} _ _.
Arguments prisma {S} _.
Arguments weatherService {S} _.

(** [error instanceof Error ? error.message : 'Unknown error'] *)
Definition messageOrUnknown (error : Thrown) : string :=
  if instanceofError error then message error else "Unknown error".

(** The [where] object built by [getProperties] and [getPropertiesCount]. *)
Definition buildWhere (city state zipCode : option string) : Prisma.WhereInput :=
  let where_ := Prisma.noWhere in
  let where_ :=
    if truthy city
    then Prisma.mkWhere
           (Some {| Prisma.contains := orEmpty city; Prisma.mode := Prisma.insensitive |})
           (Prisma.state where_) (Prisma.zipCode where_)
    else where_ in
  let where_ :=
    if truthy state
    then Prisma.mkWhere (Prisma.city where_) (Some (toUpperCase (orEmpty state)))
           (Prisma.zipCode where_)
    else where_ in
  let where_ :=
    if truthy zipCode
    then Prisma.mkWhere (Prisma.city where_) (Prisma.state where_) (Some (orEmpty zipCode))
    else where_ in
  where_.

(** A destructuring default: [x = d]. *)
Definition withDefault {A : Type} (d : A) (x : option A) : A :=
  match x with
  | Some v => v
  | None => d
  end.

Section Methods.
Context {S : Type} (host : Host S).

Definition createProperty (self : t S) (input : CreatePropertyInput.t)
  : M S Property.t :=
  let sanitizedInput := ValidationService.sanitizeInput input in
  let validation := ValidationService.validatePropertyInput sanitizedInput in
  if negb (ValidationService.isValid validation) then
    throw (Error ("Validation failed: " ++ join ", " (ValidationService.errors validation)))
  else
    let city := orEmpty (CreatePropertyInput.city sanitizedInput) in
    let street := orEmpty (CreatePropertyInput.street sanitizedInput) in
    let state := orEmpty (CreatePropertyInput.state sanitizedInput) in
    let zipCode := orEmpty (CreatePropertyInput.zipCode sanitizedInput) in
    tryCatch
      (weatherData <-
         (emit (WeatherLookup city state zipCode) ;;;
          WeatherstackService.getCurrentWeather host (weatherService self)
            city state zipCode) ;;
       let lat := parseFloat (WeatherData.lat (WeatherData.location weatherData)) in
       let long := parseFloat (WeatherData.lon (WeatherData.location weatherData)) in
       if isNaN lat || isNaN long then
         throw (Error "Invalid coordinates received from weather service")
       else
         let data :=
           {| Prisma.data_city := city;
              Prisma.data_street := street;
              Prisma.data_state := state;
              Prisma.data_zipCode := zipCode;
              Prisma.data_lat := lat;
              Prisma.data_long := long;
              Prisma.data_weatherData := weatherData |} in
         call (PrismaCreate data) (Prisma.create (prisma self) data))
      (fun error =>
         if instanceofError error then
           throw (Error ("Failed to create property: " ++ message error))
         else throw (Error "Failed to create property: Unknown error")).

(** [getProperties(filters = {})] *)
Definition getProperties (self : t S) (filters : PropertyFilters.t)
  : M S (list Property.t) :=
  let city := PropertyFilters.city filters in
  let state := PropertyFilters.state filters in
  let zipCode := PropertyFilters.zipCode filters in
  let sortBy := withDefault createdAt (PropertyFilters.sortBy filters) in
  let sortOrder := withDefault desc (PropertyFilters.sortOrder filters) in
  let limit := withDefault 50 (PropertyFilters.limit filters) in
  let offset := withDefault 0 (PropertyFilters.offset filters) in
  tryCatch
    (let where_ := buildWhere city state zipCode in
     let orderBy := {| Prisma.field := sortBy; Prisma.direction := sortOrder |} in
     let args :=
       {| Prisma.where_ := where_;
          Prisma.orderBy := orderBy;
          Prisma.take := Z.min limit 100;
          Prisma.skip := offset |} in
     call (PrismaFindMany args) (Prisma.findMany (prisma self) args))
    (fun error => throw (Error ("Failed to fetch properties: " ++ messageOrUnknown error))).

Definition getPropertyById (self : t S) (id : string) : M S (option Property.t) :=
  if ValidationService.blank (Some id) then throw (Error "Property ID is required")
  else
    tryCatch
      (call (PrismaFindUnique (trim id)) (Prisma.findUnique (prisma self) (trim id)))
      (fun error => throw (Error ("Failed to fetch property: " ++ messageOrUnknown error))).

Definition deleteProperty (self : t S) (id : string) : M S bool :=
  if ValidationService.blank (Some id) then throw (Error "Property ID is required")
  else
    tryCatch
      (existingProperty <-
         call (PrismaFindUnique (trim id)) (Prisma.findUnique (prisma self) (trim id)) ;;
       match existingProperty with
       | None => throw (Error "Property not found")
       | Some _ =>
           call (PrismaDelete (trim id)) (Prisma.delete (prisma self) (trim id)) ;;;
           ret true
       end)
      (fun error =>
         if instanceofError error && String.eqb (message error) "Property not found"
         then throw error
         else throw (Error ("Failed to delete property: " ++ messageOrUnknown error))).

(** [getPropertiesCount(filters = {})]; only the three filters are read. *)
Definition getPropertiesCount (self : t S) (filters : PropertyFilters.t) : M S Z :=
  let city := PropertyFilters.city filters in
  let state := PropertyFilters.state filters in
  let zipCode := PropertyFilters.zipCode filters in
  tryCatch
    (let where_ := buildWhere city state zipCode in
     call (PrismaCount where_) (Prisma.count (prisma self) where_))
    (fun error => throw (Error ("Failed to count properties: " ++ messageOrUnknown error))).
End Methods.

End PropertyService.

(* ================================================================== *)
(** * resolvers.ts *)
(* ================================================================== *)

Module Resolvers.

(** [new GraphQLError(message, { extensions: { code } })] *)
Module GraphQLError.
Record t : Type := mk {
  message : string;
  code : string
}.
End GraphQLError.

(** What a resolver hands back: the value, or the error it threw. *)
Inductive Response (A : Type) : Type :=
| Data (a : A)
| Failure (e : GraphQLError.t).
Arguments Data {A} a.
Arguments Failure {A} e.

Record Resolved (S A : Type) : Type := mkResolved {
  response : Response A;
  world : S;
  calls : list Event
}.
Arguments mkResolved {S A} _ _ _.
Arguments response {S A} _.
Arguments world {S A} _.
Arguments calls {S A} _.

(** The enumerations of the schema. *)
Inductive SortOption : Type := CREATED_AT | CITY | STATE.
Inductive SortOrderArg : Type := ASC | DESC.

(** The arguments of the [properties] query. *)
Module PropertiesArgs.
Record t : Type := mk {
  city : option string;
  state : option string;
  zipCode : option string;
  sortBy : option SortOption;
  sortOrder : option SortOrderArg;
  limit : option Z;
  offset : option Z
}.
End PropertiesArgs.

Definition mapSortBy (sortBy : option SortOption) : SortBy :=
  match sortBy with
  | None => createdAt
  | Some CREATED_AT => createdAt
  | Some CITY => city
  | Some STATE => state
  end.

(** [args.sortOrder?.toLowerCase() || 'desc'] *)
Definition mapSortOrder (sortOrder : option SortOrderArg) : SortOrder :=
  match sortOrder with
  | Some ASC => asc
  | Some DESC => desc
  | None => desc
  end.

(** [x || d] on an optional integer: [undefined] and [0] give [d]. *)
Definition orNumber (x : option Z) (d : Z) : Z :=
  match x with
  | Some v => if v =? 0 then d else v
  | None => d
  end.

(** The filter object that the [properties] resolver passes on. *)
Definition filtersOf (args : PropertiesArgs.t) : PropertyFilters.t :=
  {| PropertyFilters.city := PropertiesArgs.city args;
     PropertyFilters.state := PropertiesArgs.state args;
     PropertyFilters.zipCode := PropertiesArgs.zipCode args;
     PropertyFilters.sortBy := Some (mapSortBy (PropertiesArgs.sortBy args));
     PropertyFilters.sortOrder := Some (mapSortOrder (PropertiesArgs.sortOrder args));
     PropertyFilters.limit := Some (orNumber (PropertiesArgs.limit args) 50);
     PropertyFilters.offset := Some (orNumber (PropertiesArgs.offset args) 0) |}.

(** A resolver body of the shape [try { return await call } catch (error)
    { throw new GraphQLError(...) }]. *)
Definition settle {S A B : Type} (run : Run S A)
    (onValue : A -> Response B) (onError : Thrown -> GraphQLError.t) : Resolved S B :=
  mkResolved
    match outcome run with
    | Returned a => onValue a
    | Threw e => Failure (onError e)
    end
    (final run) (events run).

Definition notFound : GraphQLError.t :=
  GraphQLError.mk "Property not found" "PROPERTY_NOT_FOUND".

Section Resolvers.
Context {S : Type} (host : Host S) (propertyService : PropertyService.t S).

(** [Query.properties] *)
Definition properties (args : PropertiesArgs.t) (s : S) : Resolved S (list Property.t) :=
  settle (PropertyService.getProperties propertyService (filtersOf args) s)
    Data
    (fun error =>
       GraphQLError.mk
         ("Failed to fetch properties: " ++ PropertyService.messageOrUnknown error)
         "PROPERTIES_FETCH_ERROR").

(** [Query.property]: the [GraphQLError] thrown for a missing record passes
    through the [catch] as it is. *)
Definition property (id : string) (s : S) : Resolved S Property.t :=
  settle (PropertyService.getPropertyById propertyService id s)
    (fun found =>
       match found with
       | Some p => Data p
       | None => Failure notFound
       end)
    (fun error =>
       GraphQLError.mk
         ("Failed to fetch property: " ++ PropertyService.messageOrUnknown error)
         "PROPERTY_FETCH_ERROR").

(** [Query.health] *)
Definition health : string := "OK".

(** [Mutation.createProperty] *)
Definition createProperty (input : CreatePropertyInput.t) (s : S) : Resolved S Property.t :=
  settle (PropertyService.createProperty host propertyService input s)
    Data
    (fun error =>
       GraphQLError.mk
         ("Failed to create property: " ++ PropertyService.messageOrUnknown error)
         "PROPERTY_CREATE_ERROR").

(** [Mutation.deleteProperty] *)
Definition deleteProperty (id : string) (s : S) : Resolved S bool :=
  settle (PropertyService.deleteProperty propertyService id s)
    Data
    (fun error =>
       if instanceofError error && String.eqb (message error) "Property not found"
       then notFound
       else
         GraphQLError.mk
           ("Failed to delete property: " ++ PropertyService.messageOrUnknown error)
           "PROPERTY_DELETE_ERROR").

End Resolvers.

End Resolvers.

(* ================================================================== *)
(** * An in-memory storage client and a scripted host *)
(* ================================================================== *)

(** The storage boundary of the services is a relational table behind an ORM
    client.  [Memory] gives that client a meaning on a list of rows (filter,
    order, skip, take; insert with a fresh identifier and the current time;
    delete by identifier), so that the services can be run.  The host is a
    test double in the manner of the repository's test files: the provider's
    answer, the clock and the random draw are read from the world. *)
Module Memory.

Record World : Type := mkWorld {
  table : list Property.t;
  clock : Z;
  nextId : Z;
  respond : string -> Axios.Config -> Completion Axios.ResponseData;
  draw : number
}.

(** *** Filtering *)

(** [needle] occurs in [hay]. *)
Fixpoint occursIn (needle hay : string) : bool :=
  startsWith needle hay ||
  match hay with
  | EmptyString => false
  | String _ hay' => occursIn needle hay'
  end.

Definition matchesStringFilter (f : Prisma.StringFilter) (value : string) : bool :=
  match Prisma.mode f with
  | Prisma.insensitive => occursIn (toLowerCase (Prisma.contains f)) (toLowerCase value)
  | Prisma.default => occursIn (Prisma.contains f) value
  end.

Definition matchesOpt {A : Type} (test : A -> string -> bool)
    (constraint : option A) (value : string) : bool :=
  match constraint with
  | None => true
  | Some c => test c value
  end.

Definition matches (w : Prisma.WhereInput) (p : Property.t) : bool :=
  matchesOpt matchesStringFilter (Prisma.city w) (Property.city p)
  && matchesOpt String.eqb (Prisma.state w) (Property.state p)
  && matchesOpt String.eqb (Prisma.zipCode w) (Property.zipCode p).

(** *** Ordering *)

Definition keyLeb (f : SortBy) (a b : Property.t) : bool :=
  match f with
  | createdAt => Property.createdAt a <=? Property.createdAt b
  | city => String.leb (Property.city a) (Property.city b)
  | state => String.leb (Property.state a) (Property.state b)
  end.

(** [a] may come before [b] under the ordering [o]. *)
Definition precedes (o : Prisma.OrderBy) (a b : Property.t) : bool :=
  match Prisma.direction o with
  | asc => keyLeb (Prisma.field o) a b
  | desc => keyLeb (Prisma.field o) b a
  end.

Fixpoint insert (le : Property.t -> Property.t -> bool) (x : Property.t)
    (rows : list Property.t) : list Property.t :=
  match rows with
  | [] => [x]
  | y :: rest => if le x y then x :: rows else y :: insert le x rest
  end.

Definition sortBy (le : Property.t -> Property.t -> bool) (rows : list Property.t)
  : list Property.t :=
  fold_right (insert le) [] rows.

(** *** Pagination: a negative [take] counts from the end of the ordering. *)
Definition paginate (take skip : Z) (rows : list Property.t) : list Property.t :=
  if 0 <=? take then firstn (Z.to_nat take) (skipn (Z.to_nat skip) rows)
  else rev (firstn (Z.to_nat (- take)) (skipn (Z.to_nat skip) (rev rows))).

Definition select (args : Prisma.FindManyArgs) (rows : list Property.t) : list Property.t :=
  paginate (Prisma.take args) (Prisma.skip args)
    (sortBy (precedes (Prisma.orderBy args)) (filter (matches (Prisma.where_ args)) rows)).

(** *** The client *)

Definition hasId (id : string) (p : Property.t) : bool := String.eqb (Property.id p) id.

Definition create (data : Prisma.CreateData) (w : World) : Completion Property.t * World :=
  if (2 <? String.length (Prisma.data_state data))%nat
     || (5 <? String.length (Prisma.data_zipCode data))%nat
  then (Threw (Error "The provided value for the column is too long for the column's type"), w)
  else
    let p :=
      {| Property.id := "prop-" ++ intToString (nextId w);
         Property.city := Prisma.data_city data;
         Property.street := Prisma.data_street data;
         Property.state := Prisma.data_state data;
         Property.zipCode := Prisma.data_zipCode data;
         Property.lat := Prisma.data_lat data;
         Property.long := Prisma.data_long data;
         Property.weatherData := Prisma.data_weatherData data;
         Property.createdAt := clock w;
         Property.updatedAt := clock w |} in
    (Returned p,
     {| table := table w ++ [p];
        clock := clock w + 1;
        nextId := nextId w + 1;
        respond := respond w;
        draw := draw w |}).

Definition findMany (args : Prisma.FindManyArgs) (w : World)
  : Completion (list Property.t) * World :=
  if Prisma.skip args <? 0
  then (Threw (Error "Invalid value for skip argument: Value can only be positive"), w)
  else (Returned (select args (table w)), w).

Definition findUnique (id : string) (w : World) : Completion (option Property.t) * World :=
  (Returned (find (hasId id) (table w)), w).

Definition delete (id : string) (w : World) : Completion Property.t * World :=
  match find (hasId id) (table w) with
  | Some p =>
      (Returned p,
       {| table := filter (fun q => negb (hasId id q)) (table w);
          clock := clock w;
          nextId := nextId w;
          respond := respond w;
          draw := draw w |})
  | None => (Threw (Error "Record to delete does not exist."), w)
  end.

Definition count (where_ : Prisma.WhereInput) (w : World) : Completion Z * World :=
  (Returned (Z.of_nat (List.length (filter (matches where_) (table w)))), w).

Definition client : Prisma.Client World :=
  {| Prisma.create := create;
     Prisma.findMany := findMany;
     Prisma.findUnique := findUnique;
     Prisma.delete := delete;
     Prisma.count := count |}.

(** *** The host *)

Definition tick (w : World) : Z * World :=
  (clock w,
   {| table := table w;
      clock := clock w + 1;
      nextId := nextId w;
      respond := respond w;
      draw := draw w |}).

Definition host : Host World :=
  {| axios_get := fun url config w => (respond w url config, w);
     Date_now := tick;
     Math_random := fun w => (draw w, w);
     toISOString := fun _ => "2025-08-28T12:00:00.000Z";
     toLocaleTimeString := fun _ => "07:00 PM";
     Number_toString := fun _ => "33.448" |}.

(** A service over the in-memory client. *)
Definition service (apiKey : string) : PropertyService.t World :=
  PropertyService.mk client (WeatherstackService.new apiKey).

(** An empty table; the provider does not answer. *)
Definition offline : World :=
  {| table := [];
     clock := 1724858400000;
     nextId := 1;
     respond := fun _ _ => Threw (AxiosError None None "Network Error");
     draw := 0.5%float |}.

End Memory.

(** ** Fixtures of the test files *)

Definition phoenixLocation (lat lon : string) : WeatherData.Location :=
  {| WeatherData.name := "Phoenix";
     WeatherData.country := "United States of America";
     WeatherData.region := "Arizona";
     WeatherData.lat := lat;
     WeatherData.lon := lon;
     WeatherData.timezone_id := WeatherData.Str "America/Phoenix";
     WeatherData.localtime := "2025-08-28 12:00";
     WeatherData.localtime_epoch := 1724858400%float;
     WeatherData.utc_offset := WeatherData.Str "-7.0" |}.

Definition phoenixCurrent : WeatherData.Current :=
  {| WeatherData.observation_time := "07:00 PM";
     WeatherData.temperature := 25%float;
     WeatherData.weather_code := 113%float;
     WeatherData.weather_icons := [ "https://example.com/sunny.png" ];
     WeatherData.weather_descriptions := [ "Sunny" ];
     WeatherData.wind_speed := 10%float;
     WeatherData.wind_degree := 180%float;
     WeatherData.wind_dir := "S";
     WeatherData.pressure := 1013%float;
     WeatherData.precip := 0%float;
     WeatherData.humidity := 45%float;
     WeatherData.cloudcover := 0%float;
     WeatherData.feelslike := 25%float;
     WeatherData.uv_index := 8%float;
     WeatherData.visibility := 10%float;
     WeatherData.is_day := "yes" |}.

Definition phoenixRequest : WeatherData.Request :=
  {| WeatherData.type := "City";
     WeatherData.query := "Phoenix, AZ 85001";
     WeatherData.language := "en";
     WeatherData.unit := "m" |}.

(** A provider that answers every request with the Phoenix snapshot, its
    coordinates given by [lat] and [lon]. *)
Definition phoenixProvider (lat lon : string) : Memory.World :=
  {| Memory.table := [];
     Memory.clock := 1724858400000;
     Memory.nextId := 1;
     Memory.respond := fun _ _ =>
       Returned {| Axios.error := None;
                   Axios.success := None;
                   Axios.request := phoenixRequest;
                   Axios.location := Some (phoenixLocation lat lon);
                   Axios.current := Some phoenixCurrent |};
     Memory.draw := 0.5%float |}.

Definition phoenixInput : CreatePropertyInput.t :=
  {| CreatePropertyInput.city := Some "Phoenix";
     CreatePropertyInput.street := Some "123 Main St";
     CreatePropertyInput.state := Some "AZ";
     CreatePropertyInput.zipCode := Some "85001" |}.


(** The snapshot that [phoenixProvider lat lon] answers with. *)
Definition phoenixSnapshot (lat lon : string) : WeatherData.t :=
  {| WeatherData.request := phoenixRequest;
     WeatherData.location := phoenixLocation lat lon;
     WeatherData.current := phoenixCurrent |}.

Definition emptyCityInput : CreatePropertyInput.t :=
  {| CreatePropertyInput.city := Some "";
     CreatePropertyInput.street := Some "123 Main St";
     CreatePropertyInput.state := Some "AZ";
     CreatePropertyInput.zipCode := Some "85001" |}.

(** A submission with a lower-case state code. *)
Definition lowerCaseState : CreatePropertyInput.t :=
  {| CreatePropertyInput.city := Some "Phoenix";
     CreatePropertyInput.street := Some "123 Main St";
     CreatePropertyInput.state := Some "az";
     CreatePropertyInput.zipCode := Some "85001" |}.

(** The same submission as it may arrive, padded with blanks. *)
Definition paddedState : CreatePropertyInput.t :=
  {| CreatePropertyInput.city := Some "  Phoenix  ";
     CreatePropertyInput.street := Some "  123 Main St  ";
     CreatePropertyInput.state := Some "  az  ";
     CreatePropertyInput.zipCode := Some "  85001  " |}.

(** A provider that answers every request with the body [data]. *)
Definition answering (data : Axios.ResponseData) : Memory.World :=
  {| Memory.table := [];
     Memory.clock := 1724858400000;
     Memory.nextId := 1;
     Memory.respond := fun _ _ => Returned data;
     Memory.draw := 0.5%float |}.

(** [{ error: { code, info } }] *)
Definition errorBody (code : Z) (info : string) : Axios.ResponseData :=
  {| Axios.error := Some {| Axios.code := code; Axios.info := info |};
     Axios.success := Some false;
     Axios.request := phoenixRequest;
     Axios.location := None;
     Axios.current := None |}.

(** The four violations of the test "should collect multiple errors". *)
Definition fourViolations : CreatePropertyInput.t :=
  {| CreatePropertyInput.city := Some "";
     CreatePropertyInput.street := Some "";
     CreatePropertyInput.state := Some "XX";
     CreatePropertyInput.zipCode := Some "123" |}.

Definition sampleRow (n : nat) : Property.t :=
  {| Property.id := "prop-" ++ intToString (Z.of_nat n);
     Property.city := "Phoenix";
     Property.street := "123 Main St";
     Property.state := "AZ";
     Property.zipCode := "85001";
     Property.lat := parseFloat "33.448";
     Property.long := parseFloat "-112.074";
     Property.weatherData := phoenixSnapshot "33.448" "-112.074";
     Property.createdAt := 1724858400000 + Z.of_nat n;
     Property.updatedAt := 1724858400000 + Z.of_nat n |}.

(** A world whose table holds [n] rows, created one millisecond apart. *)
Definition stocked (n : nat) : Memory.World :=
  {| Memory.table := map sampleRow (seq 1 n);
     Memory.clock := 1724858400000 + Z.of_nat n + 1;
     Memory.nextId := Z.of_nat n + 1;
     Memory.respond := fun _ _ => Threw (AxiosError None None "Network Error");
     Memory.draw := 0.5%float |}.

(** [{ limit: 200 }] *)
Definition limit200 : PropertyFilters.t :=
  PropertyFilters.mk None None None None None (Some 200) None.

(** [rows.map(p => p.id)] of what a listing returned. *)
Definition returnedIds (run : Run Memory.World (list Property.t)) : list string :=
  match outcome run with
  | Returned rows => map Property.id rows
  | Threw _ => []
  end.

(* ================================================================== *)
(** * Vocabulary of the statements *)
(* ================================================================== *)

(** ** Calls *)

(** A computation that makes no call. *)
Definition silent {S A : Type} (m : M S A) : Prop := forall s, events (m s) = [].

Definition isHttpGet (ev : Event) : Prop :=
  match ev with
  | HttpGet _ _ => True
  | _ => False
  end.

(** The request that a live lookup sends. *)
Definition lookupConfig (self : WeatherstackService.t) (city state zipCode : string)
  : Axios.Config :=
  {| Axios.params :=
       {| Axios.access_key := WeatherstackService.apiKey self;
          Axios.query := city ++ ", " ++ state ++ " " ++ zipCode;
          Axios.units := "m" |};
     Axios.timeout := 15000 |}.

(** ** The create workflow *)

(** The weather lookup that [createProperty] makes for a submission. *)
Definition lookupFor {S : Type} (host : Host S) (self : PropertyService.t S)
    (input : CreatePropertyInput.t) : M S WeatherData.t :=
  let sanitizedInput := ValidationService.sanitizeInput input in
  WeatherstackService.getCurrentWeather host (PropertyService.weatherService self)
    (orEmpty (CreatePropertyInput.city sanitizedInput))
    (orEmpty (CreatePropertyInput.state sanitizedInput))
    (orEmpty (CreatePropertyInput.zipCode sanitizedInput)).

Definition lookupEvent (input : CreatePropertyInput.t) : Event :=
  let sanitizedInput := ValidationService.sanitizeInput input in
  WeatherLookup
    (orEmpty (CreatePropertyInput.city sanitizedInput))
    (orEmpty (CreatePropertyInput.state sanitizedInput))
    (orEmpty (CreatePropertyInput.zipCode sanitizedInput)).

(** The row that [createProperty] hands to storage. *)
Definition createData (input : CreatePropertyInput.t) (weatherData : WeatherData.t)
  : Prisma.CreateData :=
  let sanitizedInput := ValidationService.sanitizeInput input in
  {| Prisma.data_city := orEmpty (CreatePropertyInput.city sanitizedInput);
     Prisma.data_street := orEmpty (CreatePropertyInput.street sanitizedInput);
     Prisma.data_state := orEmpty (CreatePropertyInput.state sanitizedInput);
     Prisma.data_zipCode := orEmpty (CreatePropertyInput.zipCode sanitizedInput);
     Prisma.data_lat := parseFloat (WeatherData.lat (WeatherData.location weatherData));
     Prisma.data_long := parseFloat (WeatherData.lon (WeatherData.location weatherData));
     Prisma.data_weatherData := weatherData |}.

(** [isNaN(lat) || isNaN(long)] on the parsed coordinates of a snapshot. *)
Definition coordinatesAreNaN (weatherData : WeatherData.t) : bool :=
  isNaN (parseFloat (WeatherData.lat (WeatherData.location weatherData)))
  || isNaN (parseFloat (WeatherData.lon (WeatherData.location weatherData))).

Definition coordinateError : Thrown :=
  Error "Failed to create property: Invalid coordinates received from weather service".

(** The submission passes [validatePropertyInput] once sanitized. *)
Definition validates (input : CreatePropertyInput.t) : bool :=
  ValidationService.isValid
    (ValidationService.validatePropertyInput (ValidationService.sanitizeInput input)).

Definition validationError (input : CreatePropertyInput.t) : Thrown :=
  Error ("Validation failed: "
         ++ join ", "
              (ValidationService.errors
                 (ValidationService.validatePropertyInput
                    (ValidationService.sanitizeInput input)))).

(** The [catch] block of [createProperty]. *)
Definition wrapCreateError (error : Thrown) : Thrown :=
  if instanceofError error
  then Error ("Failed to create property: " ++ message error)
  else Error "Failed to create property: Unknown error".

(** ** Listings *)

(** [{ ...filters, city }] and its siblings. *)
Definition withCity (city : option string) (f : PropertyFilters.t) : PropertyFilters.t :=
  PropertyFilters.mk city (PropertyFilters.state f) (PropertyFilters.zipCode f)
    (PropertyFilters.sortBy f) (PropertyFilters.sortOrder f)
    (PropertyFilters.limit f) (PropertyFilters.offset f).

Definition withState (state : option string) (f : PropertyFilters.t) : PropertyFilters.t :=
  PropertyFilters.mk (PropertyFilters.city f) state (PropertyFilters.zipCode f)
    (PropertyFilters.sortBy f) (PropertyFilters.sortOrder f)
    (PropertyFilters.limit f) (PropertyFilters.offset f).

Definition withZipCode (zipCode : option string) (f : PropertyFilters.t) : PropertyFilters.t :=
  PropertyFilters.mk (PropertyFilters.city f) (PropertyFilters.state f) zipCode
    (PropertyFilters.sortBy f) (PropertyFilters.sortOrder f)
    (PropertyFilters.limit f) (PropertyFilters.offset f).

(** [{ createdAt: 'desc' }] *)
Definition newestFirst : Prisma.OrderBy :=
  {| Prisma.field := createdAt; Prisma.direction := desc |}.

(** Rows in descending order of creation time. *)
Definition newestFirstOrder (rows : list Property.t) : Prop :=
  Sorted (fun a b => Property.createdAt a >= Property.createdAt b) rows.

(** The call that [getProperties] sends to storage for [filters]. *)
Definition findManyArgs (filters : PropertyFilters.t) : Prisma.FindManyArgs :=
  {| Prisma.where_ :=
       PropertyService.buildWhere (PropertyFilters.city filters)
         (PropertyFilters.state filters) (PropertyFilters.zipCode filters);
     Prisma.orderBy :=
       {| Prisma.field :=
            PropertyService.withDefault createdAt (PropertyFilters.sortBy filters);
          Prisma.direction :=
            PropertyService.withDefault desc (PropertyFilters.sortOrder filters) |};
     Prisma.take :=
       Z.min (PropertyService.withDefault 50 (PropertyFilters.limit filters)) 100;
     Prisma.skip := PropertyService.withDefault 0 (PropertyFilters.offset filters) |}.

(** ** Coordinates *)

(** The two coordinates of [generateCoordinates] as functions of the reduced
    hash [Math.abs(hash % n)]. *)
Definition latOf (r : Z) : number :=
  (Math_round ((24 + ofZ r / 1000) * 1000) / 1000)%float.

Definition longOf (r : Z) : number :=
  (Math_round ((-125 + ofZ r / 1000) * 1000) / 1000)%float.

(** [x] is the Number of [k] thousandths: [k / 1000]. *)
Definition thousandths (k : Z) (x : number) : bool :=
  PrimFloat.Leibniz.eqb x (ofZ k / 1000)%float.

Definition latCheck (r : Z) : bool :=
  let x := latOf r in
  thousandths (24000 + r) x && (24 <=? x)%float && (x <? 49)%float.

Definition longCheck (r : Z) : bool :=
  let x := longOf r in
  thousandths (-125000 + r) x && (-125 <=? x)%float && (x <? -66)%float.

(** [f] holds on the [n] integers from [z] on. *)
Fixpoint allFrom (f : Z -> bool) (n : nat) (z : Z) : bool :=
  match n with
  | O => true
  | S k => f z && allFrom f k (z + 1)
  end.

(** ** The weather adapter *)

(** The location query of a request: [`${city}, ${state} ${zipCode}`]. *)
Definition requestQuery (city state zipCode : string) : string :=
  city ++ ", " ++ state ++ " " ++ zipCode.

(** [axios.isAxiosError(error)] *)
Definition isAxiosError (error : Thrown) : bool :=
  match error with
  | AxiosError _ _ _ => true
  | _ => false
  end.

(** The key selects the synthetic generator. *)
Definition isMockKey (self : WeatherstackService.t) : Prop :=
  WeatherstackService.apiKey self = "demo_key" \/ WeatherstackService.apiKey self = "mock".

(** A response body that the adapter accepts: no error object, no
    [success: false], both sections present. *)
Definition wellFormedBody (data : Axios.ResponseData) : Prop :=
  Axios.error data = None
  /\ Axios.success data <> Some false
  /\ Axios.current data <> None
  /\ Axios.location data <> None.

(** The request of [testConnection]. *)
Definition probeConfig (self : WeatherstackService.t) : Axios.Config :=
  {| Axios.params :=
       {| Axios.access_key := WeatherstackService.apiKey self;
          Axios.query := "New York";
          Axios.units := "m" |};
     Axios.timeout := 10000 |}.

(** A provider whose every request fails with [error]. *)
Definition rejecting (error : Thrown) : Memory.World :=
  {| Memory.table := [];
     Memory.clock := 1724858400000;
     Memory.nextId := 1;
     Memory.respond := fun _ _ => Threw error;
     Memory.draw := 0.5%float |}.

(** The answer that [phoenixProvider lat lon] gives. *)
Definition phoenixBody (lat lon : string) : Axios.ResponseData :=
  {| Axios.error := None;
     Axios.success := None;
     Axios.request := phoenixRequest;
     Axios.location := Some (phoenixLocation lat lon);
     Axios.current := Some phoenixCurrent |}.

(** A computation that returns from every state. *)
Definition returns {S A : Type} (m : M S A) : Prop :=
  forall s, exists a, outcome (m s) = Returned a.

(** ** Storage *)

(** The submission that a stored row spells out. *)
Definition submitted (data : Prisma.CreateData) : CreatePropertyInput.t :=
  {| CreatePropertyInput.city := Some (Prisma.data_city data);
     CreatePropertyInput.street := Some (Prisma.data_street data);
     CreatePropertyInput.state := Some (Prisma.data_state data);
     CreatePropertyInput.zipCode := Some (Prisma.data_zipCode data) |}.

(** The identifier that the in-memory table assigns next. *)
Definition nextIdentifier (w : Memory.World) : string :=
  "prop-" ++ intToString (Memory.nextId w).

(** No stored row has the next identifier yet. *)
Definition fresh (w : Memory.World) : Prop :=
  find (Memory.hasId (nextIdentifier w)) (Memory.table w) = None.


(** No white space anywhere in [s]. *)
Fixpoint noWhiteSpace (s : string) : bool :=
  match s with
  | EmptyString => true
  | String c s' => negb (isWhiteSpace c) && noWhiteSpace s'
  end.

(** The row that the first [createProperty] of [phoenixInput] stores when
    the provider answers with the Phoenix snapshot. *)
Definition phoenixRow : Property.t :=
  {| Property.id := "prop-1";
     Property.city := "Phoenix";
     Property.street := "123 Main St";
     Property.state := "AZ";
     Property.zipCode := "85001";
     Property.lat := parseFloat "33.448";
     Property.long := parseFloat "-112.074";
     Property.weatherData := phoenixSnapshot "33.448" "-112.074";
     Property.createdAt := 1724858400000;
     Property.updatedAt := 1724858400000 |}.

(** The [catch] block of [deleteProperty]. *)
Definition wrapDeleteError (error : Thrown) : Thrown :=
  if instanceofError error && String.eqb (message error) "Property not found"
  then error
  else Error ("Failed to delete property: " ++ PropertyService.messageOrUnknown error).

(** [{ limit: 0 }] as the arguments of the [properties] query. *)
Definition limitZero : Resolvers.PropertiesArgs.t :=
  Resolvers.PropertiesArgs.mk None None None None None (Some 0) None.

(** [m] returns from every state, and what it returns satisfies [P]. *)
Definition yields {S A : Type} (m : M S A) (P : A -> Prop) : Prop :=
  forall s, exists a, outcome (m s) = Returned a /\ P a.

(** The coordinates that the mock generator derives for a submission. *)
Definition mockCoordinates (input : CreatePropertyInput.t) : WeatherstackService.Coordinates :=
  WeatherstackService.generateCoordinates
    (orEmpty (CreatePropertyInput.city (ValidationService.sanitizeInput input)))
    (orEmpty (CreatePropertyInput.state (ValidationService.sanitizeInput input))).

(** The printed coordinates read back as the numbers they print. *)
Definition printsBack {S : Type} (host : Host S) (c : WeatherstackService.Coordinates)
  : Prop :=
  parseFloat (Number_toString host (WeatherstackService.lat c)) = WeatherstackService.lat c
  /\ parseFloat (Number_toString host (WeatherstackService.long c))
     = WeatherstackService.long c.

(** The in-memory host with a printer that knows two numerals, one for
    the numbers below zero and one for the others. *)
Definition printing (negative other : string) : Host Memory.World :=
  {| axios_get := axios_get Memory.host;
     Date_now := Date_now Memory.host;
     Math_random := Math_random Memory.host;
     toISOString := toISOString Memory.host;
     toLocaleTimeString := toLocaleTimeString Memory.host;
     Number_toString := fun x => if (x <? 0)%float then negative else other |}.

(* ================================================================== *)
(** * Strings *)
(* ================================================================== *)

Section StringFacts.


Lemma append_associative (a b c : string) : (a ++ b) ++ c = a ++ (b ++ c).
Proof.
  induction a as [|x a IH]; simpl; [reflexivity | now rewrite IH].
Qed.












(** [trimStart] leaves nothing, or a string that starts with a character
    that is not white space. *)
Lemma trimStart_head (s : string) :
  trimStart s = EmptyString \/
  exists c r, trimStart s = String c r /\ isWhiteSpace c = false.
Proof.
  induction s as [|c s IH]; simpl.
  - now left.
  - destruct (isWhiteSpace c) eqn:E.
    + exact IH.
    + right. now exists c, s.
Qed.

Lemma trimEnd_keeps_head (c : ascii) (r : string) :
  isWhiteSpace c = false -> exists r', trimEnd (String c r) = String c r'.
Proof.
  intros E. simpl. rewrite E.
  destruct (trimEnd r); eauto.
Qed.

Lemma trimEnd_idempotent (s : string) : trimEnd (trimEnd s) = trimEnd s.
Proof.
  induction s as [|c s IH]; simpl.
  - reflexivity.
  - destruct (trimEnd s) as [|d t] eqn:E.
    + destruct (isWhiteSpace c) eqn:W; simpl.
      * reflexivity.
      * now rewrite W.
    + change (trimEnd (String c (String d t))) with
        (match trimEnd (String d t) with
         | EmptyString => if isWhiteSpace c then EmptyString else String c EmptyString
         | u => String c u
         end).
      now rewrite IH.
Qed.

Lemma trim_idempotent (s : string) : trim (trim s) = trim s.
Proof.
  unfold trim.
  destruct (trimStart_head s) as [E | (c & r & E & W)]; rewrite E.
  - reflexivity.
  - destruct (trimEnd_keeps_head c r W) as [r' E'].
    assert (H : trimStart (trimEnd (String c r)) = trimEnd (String c r)).
    { rewrite E'. simpl. now rewrite W. }
    rewrite H. apply trimEnd_idempotent.
Qed.










(** [!id || id.trim().length === 0] says that the trimmed text is empty. *)
Lemma blank_Some (s : string) :
  ValidationService.blank (Some s) = isEmpty (trim s).
Proof.
  unfold ValidationService.blank; simpl.
  destruct s; reflexivity.
Qed.

Lemma isEmpty_true (s : string) : isEmpty s = true <-> s = EmptyString.
Proof. destruct s; simpl; split; congruence. Qed.

Lemma includes_In (xs : list string) (x : string) :
  includes xs x = true <-> In x xs.
Proof.
  unfold includes. rewrite existsb_exists. split.
  - intros (y & Hy & E). apply String.eqb_eq in E. now subst.
  - intros H. exists x. split; [exact H | apply String.eqb_refl].
Qed.

End StringFacts.

(* ================================================================== *)
(** * ValidationService *)
(* ================================================================== *)

Section Validation.
Import ValidationService.

Lemma pushIf_In (b : bool) (msg x : string) (l : list string) :
  In x (pushIf b msg l) <-> In x l \/ (b = true /\ x = msg).
Proof.
  unfold pushIf. destruct b.
  - rewrite in_app_iff. simpl. intuition congruence.
  - intuition congruence.
Qed.

(** C9.  The result of [validatePropertyInput] is consistent: [isValid] is
    true exactly when [errors] is empty, and there are never more than
    four errors. *)
Theorem validatePropertyInput_consistent (input : CreatePropertyInput.t) :
  (isValid (validatePropertyInput input) = true
     <-> errors (validatePropertyInput input) = [])
  /\ (List.length (errors (validatePropertyInput input)) <= 4)%nat.
Proof.
  split.
  - unfold validatePropertyInput; simpl.
    rewrite Nat.eqb_eq. apply length_zero_iff_nil.
  - unfold validatePropertyInput; simpl.
    unfold pushIf.
    repeat match goal with
           | |- context [if ?b then _ else _] => destruct b
           end; simpl; lia.
Qed.

(** The state error is reported exactly when the state field is missing,
    empty, or not literally one of [US_STATES]. *)
Lemma stateError_reported (input : CreatePropertyInput.t) :
  In stateError (errors (validatePropertyInput input)) <->
  negb (truthy (CreatePropertyInput.state input))
  || negb (includes US_STATES (orEmpty (CreatePropertyInput.state input))) = true.
Proof.
  unfold validatePropertyInput; simpl.
  rewrite !pushIf_In. simpl.
  split.
  - intros [[[[[] | [_ E]] | [_ E]] | [H _]] | [_ E]];
      try discriminate E; exact H.
  - intros H. left. right. now split.
Qed.



(** C4, as stated, does not hold: ["az"] is a valid abbreviation in lower
    case, and [validatePropertyInput] reports the state error for it. *)
Lemma validatePropertyInput_rejects_lower_case_state :
  ~ (forall (input : CreatePropertyInput.t) (s : string),
        CreatePropertyInput.state input = Some s ->
        includes US_STATES (toUpperCase s) = true ->
        ~ In stateError (errors (validatePropertyInput input))).
Proof.
  intros H.
  apply (H lowerCaseState "az"); try reflexivity.
  apply stateError_reported. reflexivity.
Qed.

(** C4, amended.  [validatePropertyInput] tests the state field for literal
    membership in [US_STATES]; letter case is forgiven by [sanitizeInput],
    which upper-cases and trims the field: a submission whose state is in
    [US_STATES] after that normalization gets no state error from
    [validatePropertyInput (sanitizeInput input)]. *)
Theorem state_rule_after_sanitizeInput (input : CreatePropertyInput.t) (s : string) :
  CreatePropertyInput.state input = Some s ->
  (In stateError (errors (validatePropertyInput input)) <-> ~ In s US_STATES)
  /\ (In (trim (toUpperCase s)) US_STATES ->
      ~ In stateError (errors (validatePropertyInput (sanitizeInput input)))).
Proof.
  intros E.
  assert (Empty : includes US_STATES EmptyString = false) by reflexivity.
  split.
  - rewrite stateError_reported, E.
    unfold truthy, orEmpty.
    destruct s as [|c r]; cbn [isEmpty negb orb].
    + split; [intros _ H | reflexivity].
      rewrite <- includes_In in H. congruence.
    + rewrite negb_true_iff, <- not_true_iff_false, includes_In. reflexivity.
  - intros H.
    rewrite stateError_reported.
    unfold sanitizeInput, trimmed, truthy, orEmpty.
    cbn [CreatePropertyInput.state]. rewrite E. cbn [option_map].
    rewrite <- includes_In in H.
    destruct (trim (toUpperCase s)) as [|c r]; cbn [isEmpty negb orb].
    + congruence.
    + rewrite H. discriminate.
Qed.

Lemma state_rule_after_sanitizeInput_witness :
  In stateError (errors (validatePropertyInput paddedState))
  /\ ~ In stateError (errors (validatePropertyInput (sanitizeInput paddedState))).
Proof.
  destruct (state_rule_after_sanitizeInput paddedState "  az  " eq_refl) as [Raw Clean].
  split.
  - apply Raw. intros H.
    rewrite <- includes_In in H. vm_compute in H. discriminate H.
  - apply Clean. apply includes_In. reflexivity.
Defined.

End Validation.

(* ================================================================== *)
(** * Calls made by a computation *)
(* ================================================================== *)

Section EventFacts.
Context {S : Type}.

Lemma silent_ret {A : Type} (a : A) : silent (@ret S A a).
Proof. intros s. reflexivity. Qed.

Lemma silent_ask {A : Type} (f : S -> A * S) : silent (ask f).
Proof. intros s. unfold ask. now destruct (f s). Qed.

Lemma silent_bind {A B : Type} (m : M S A) (k : A -> M S B) :
  silent m -> (forall a, silent (k a)) -> silent (bind m k).
Proof.
  intros Hm Hk s. unfold bind.
  destruct (outcome (m s)); simpl.
  - now rewrite Hm, Hk.
  - apply Hm.
Qed.

End EventFacts.

(* ================================================================== *)
(** * WeatherstackService: mode selection *)
(* ================================================================== *)

Section Adapter.
Import WeatherstackService.
Context {S : Type} (host : Host S).

Lemma getMockWeatherData_silent (self : t) (city state zipCode : string) :
  silent (getMockWeatherData host self city state zipCode).
Proof.
  unfold getMockWeatherData.
  repeat (apply silent_bind; [apply silent_ask | intros ?]).
  apply silent_ret.
Qed.

Lemma liveLookup_events (self : t) (city state zipCode : string) (s : S) :
  events (liveLookup host self city state zipCode s)
  = [HttpGet (baseUrl self) (lookupConfig self city state zipCode)].
Proof.
  unfold liveLookup, tryCatch, bind, call, lookupConfig.
  destruct (axios_get host _ _ s) as [[data | e] s']; simpl.
  - destruct (Axios.error data); simpl; [reflexivity |].
    destruct (Axios.success data) as [[|]|]; simpl;
      destruct (Axios.current data); simpl;
      destruct (Axios.location data); reflexivity.
  - reflexivity.
Qed.

Lemma mock_key_cases (key : string) :
  String.eqb key "demo_key" || String.eqb key "mock" = true
  <-> key = "demo_key" \/ key = "mock".
Proof.
  rewrite orb_true_iff, !String.eqb_eq. reflexivity.
Qed.

(** C3, amended.  The mock keys are ["demo_key"] and ["mock"]: with either,
    [getCurrentWeather] is the synthetic generator and makes no call; with
    any other key it is the live lookup, which sends exactly one request to
    the provider. *)
Theorem getCurrentWeather_mode (self : t) (city state zipCode : string) (s : S) :
  (apiKey self = "demo_key" \/ apiKey self = "mock" ->
     getCurrentWeather host self city state zipCode s
     = getMockWeatherData host self city state zipCode s
     /\ events (getCurrentWeather host self city state zipCode s) = [])
  /\ (apiKey self <> "demo_key" -> apiKey self <> "mock" ->
     getCurrentWeather host self city state zipCode s
     = liveLookup host self city state zipCode s
     /\ events (getCurrentWeather host self city state zipCode s)
        = [HttpGet (baseUrl self) (lookupConfig self city state zipCode)]).
Proof.
  unfold getCurrentWeather. split.
  - intros H. apply mock_key_cases in H. rewrite H.
    split; [reflexivity | apply getMockWeatherData_silent].
  - intros H1 H2.
    destruct (String.eqb (apiKey self) "demo_key" || String.eqb (apiKey self) "mock") eqn:E.
    + apply mock_key_cases in E. tauto.
    + split; [reflexivity | apply liveLookup_events].
Qed.

(** The adapter never touches storage: whatever it calls is a request. *)
Lemma getCurrentWeather_events (self : t) (city state zipCode : string) (s : S) :
  Forall isHttpGet (events (getCurrentWeather host self city state zipCode s)).
Proof.
  unfold getCurrentWeather.
  destruct (String.eqb (apiKey self) "demo_key" || String.eqb (apiKey self) "mock").
  - rewrite getMockWeatherData_silent. constructor.
  - rewrite liveLookup_events. repeat constructor.
Qed.

End Adapter.

Lemma getCurrentWeather_mode_witness :
  events (WeatherstackService.getCurrentWeather Memory.host
            (WeatherstackService.new "mock") "Phoenix" "AZ" "85001" Memory.offline) = []
  /\ events (WeatherstackService.getCurrentWeather Memory.host
               (WeatherstackService.new "test-api-key") "Phoenix" "AZ" "85001" Memory.offline)
     = [HttpGet "https://api.weatherstack.com/current"
          (lookupConfig (WeatherstackService.new "test-api-key") "Phoenix" "AZ" "85001")].
Proof.
  split.
  - apply (getCurrentWeather_mode Memory.host (WeatherstackService.new "mock")).
    right. reflexivity.
  - apply (getCurrentWeather_mode Memory.host (WeatherstackService.new "test-api-key"));
      discriminate.
Defined.

(** C3, as stated, does not hold: with the key ["demo"] the adapter sends a
    request (here the provider is unreachable, so the lookup fails), and with
    ["demo_key"], a key other than ["demo"] and ["mock"], it sends none and
    returns the synthetic snapshot. *)
Lemma demo_is_not_a_mock_key :
  (let run := WeatherstackService.getCurrentWeather Memory.host
                (WeatherstackService.new "demo") "Phoenix" "AZ" "85001" Memory.offline in
   events run
   = [HttpGet "https://api.weatherstack.com/current"
        (lookupConfig (WeatherstackService.new "demo") "Phoenix" "AZ" "85001")]
   /\ outcome run = Threw (Error "Weatherstack service error: Network Error"))
  /\ (let run := WeatherstackService.getCurrentWeather Memory.host
                   (WeatherstackService.new "demo_key") "Phoenix" "AZ" "85001" Memory.offline in
      events run = []
      /\ run = WeatherstackService.getMockWeatherData Memory.host
                 (WeatherstackService.new "demo_key") "Phoenix" "AZ" "85001" Memory.offline).
Proof.
  cbv zeta. split; split; reflexivity.
Qed.

(* ================================================================== *)
(** * PropertyService.createProperty: validate, enrich, persist *)
(* ================================================================== *)

Section Workflow.
Import ValidationService PropertyService.
Context {S : Type} (host : Host S) (self : PropertyService.t S).

Lemma createProperty_invalid (input : CreatePropertyInput.t) (s : S) :
  validates input = false ->
  createProperty host self input s = mkRun (Threw (validationError input)) s [].
Proof.
  unfold validates. intros H. unfold createProperty. rewrite H. reflexivity.
Qed.

(** [createProperty] on a valid submission, case by case. *)
Lemma createProperty_valid (input : CreatePropertyInput.t) (s : S) :
  validates input = true ->
  createProperty host self input s =
  let r := lookupFor host self input s in
  match outcome r with
  | Threw e =>
      mkRun (Threw (wrapCreateError e)) (final r) (lookupEvent input :: events r)
  | Returned weatherData =>
      if coordinatesAreNaN weatherData then
        mkRun (Threw coordinateError) (final r) (lookupEvent input :: events r)
      else
        let stored := Prisma.create (prisma self) (createData input weatherData) (final r) in
        mkRun
          match fst stored with
          | Returned p => Returned p
          | Threw e => Threw (wrapCreateError e)
          end
          (snd stored)
          (lookupEvent input :: events r ++ [PrismaCreate (createData input weatherData)])
  end.
Proof.
  unfold validates. intros H. unfold createProperty. rewrite H.
  cbn [negb]. unfold tryCatch, bind, emit, lookupFor, lookupEvent.
  cbn [outcome final events].
  remember (WeatherstackService.getCurrentWeather _ _ _ _ _ s) as r eqn:R.
  destruct (outcome r) as [weatherData | e] eqn:O; cbn [outcome final events app].
  - fold (coordinatesAreNaN weatherData).
    destruct (coordinatesAreNaN weatherData); cbn [outcome final events throw].
    + unfold wrapCreateError, coordinateError. cbn.
      now rewrite !app_nil_r.
    + fold (createData input weatherData).
      unfold call.
      destruct (Prisma.create (prisma self) (createData input weatherData) (final r))
        as [[p | e] s']; cbn; unfold wrapCreateError.
      * reflexivity.
      * destruct (instanceofError e); cbn; now rewrite !app_nil_r.
  - unfold wrapCreateError.
    destruct (instanceofError e); cbn; now rewrite !app_nil_r.
Qed.

Lemma lookupFor_events (input : CreatePropertyInput.t) (s : S) (data : Prisma.CreateData) :
  ~ In (PrismaCreate data) (events (lookupFor host self input s)).
Proof.
  intros H.
  pose proof (getCurrentWeather_events host (weatherService self)
                (orEmpty (CreatePropertyInput.city (sanitizeInput input)))
                (orEmpty (CreatePropertyInput.state (sanitizeInput input)))
                (orEmpty (CreatePropertyInput.zipCode (sanitizeInput input))) s) as F.
  rewrite Forall_forall in F. exact (F _ H).
Qed.

(** Where a storage write can come from: a valid submission, a snapshot and
    two coordinates that are not NaN. *)
Lemma createProperty_create_event (input : CreatePropertyInput.t) (s : S)
    (data : Prisma.CreateData) :
  In (PrismaCreate data) (events (createProperty host self input s)) ->
  validates input = true
  /\ exists weatherData,
       outcome (lookupFor host self input s) = Returned weatherData
       /\ coordinatesAreNaN weatherData = false
       /\ data = createData input weatherData.
Proof.
  intros H.
  destruct (validates input) eqn:V.
  - split; [reflexivity |].
    rewrite (createProperty_valid input s V) in H. cbv zeta in H.
    destruct (outcome (lookupFor host self input s)) as [weatherData | e] eqn:O.
    + exists weatherData. split; [reflexivity |].
      destruct (coordinatesAreNaN weatherData) eqn:N; cbn [events] in H.
      * destruct H as [H | H]; [discriminate H |].
        now apply lookupFor_events in H.
      * destruct H as [H | H]; [discriminate H |].
        apply in_app_or in H. destruct H as [H | [H | []]].
        -- now apply lookupFor_events in H.
        -- split; congruence.
    + cbn [events] in H.
      destruct H as [H | H]; [discriminate H |].
      now apply lookupFor_events in H.
  - rewrite (createProperty_invalid input s V) in H. destruct H.
Qed.

(** C2.  [createProperty] keeps the order validate, enrich, persist: an
    invalid submission aborts with one combined message and no call at all,
    neither to the weather adapter nor to storage; a storage write happens
    only for a valid submission, after a weather lookup that returned a
    snapshot, and after that snapshot passed the coordinate check. *)
Theorem createProperty_sequencing (input : CreatePropertyInput.t) (s : S) :
  (validates input = false ->
     createProperty host self input s = mkRun (Threw (validationError input)) s [])
  /\ (forall data,
        In (PrismaCreate data) (events (createProperty host self input s)) ->
        validates input = true
        /\ exists weatherData,
             outcome (lookupFor host self input s) = Returned weatherData
             /\ coordinatesAreNaN weatherData = false
             /\ data = createData input weatherData).
Proof.
  split.
  - apply createProperty_invalid.
  - intros data. apply createProperty_create_event.
Qed.

(** C1, amended.  The coordinate check is [isNaN]: when the latitude or the
    longitude of the snapshot parses to NaN, [createProperty] aborts with
    the wrapped coordinate error and storage is not called; when neither
    does, the record is handed to storage with the parsed values as they
    are; so whatever reaches storage has coordinates that are not NaN. *)
Theorem createProperty_coordinate_check (input : CreatePropertyInput.t) (s : S)
    (weatherData : WeatherData.t) :
  validates input = true ->
  outcome (lookupFor host self input s) = Returned weatherData ->
  (coordinatesAreNaN weatherData = true ->
     createProperty host self input s
     = mkRun (Threw coordinateError) (final (lookupFor host self input s))
         (lookupEvent input :: events (lookupFor host self input s))
     /\ forall data, ~ In (PrismaCreate data) (events (createProperty host self input s)))
  /\ (coordinatesAreNaN weatherData = false ->
      events (createProperty host self input s)
      = lookupEvent input :: events (lookupFor host self input s)
          ++ [PrismaCreate (createData input weatherData)])
  /\ (forall data,
        In (PrismaCreate data) (events (createProperty host self input s)) ->
        isNaN (Prisma.data_lat data) = false /\ isNaN (Prisma.data_long data) = false).
Proof.
  intros V O.
  pose proof (createProperty_valid input s V) as E. cbv zeta in E. rewrite O in E.
  split; [| split].
  - intros N. split.
    + rewrite E, N. reflexivity.
    + intros data D.
      apply createProperty_create_event in D.
      destruct D as (_ & wd & O' & N' & _). congruence.
  - intros N. rewrite E, N. reflexivity.
  - intros data D.
    apply createProperty_create_event in D.
    destruct D as (_ & wd & _ & N & ->).
    unfold coordinatesAreNaN in N. now apply orb_false_iff in N.
Qed.

End Workflow.

Lemma createProperty_sequencing_witness :
  PropertyService.createProperty Memory.host (Memory.service "test-api-key")
    emptyCityInput Memory.offline
  = mkRun (Threw (Error "Validation failed: City is required")) Memory.offline [].
Proof.
  apply (createProperty_sequencing Memory.host (Memory.service "test-api-key")
           emptyCityInput Memory.offline).
  reflexivity.
Defined.

Lemma createProperty_coordinate_check_witness :
  outcome (PropertyService.createProperty Memory.host (Memory.service "test-api-key")
             phoenixInput (phoenixProvider "invalid" "invalid"))
  = Threw (Error "Failed to create property: Invalid coordinates received from weather service").
Proof.
  destruct (createProperty_coordinate_check Memory.host (Memory.service "test-api-key")
              phoenixInput (phoenixProvider "invalid" "invalid")
              (phoenixSnapshot "invalid" "invalid") eq_refl eq_refl) as [H _].
  destruct (H eq_refl) as [E _].
  rewrite E. reflexivity.
Defined.

(** C1, as stated, does not hold: the provider answers a valid submission
    with the latitude ["Infinity"], which does not parse to a finite number;
    [createProperty] calls storage all the same and returns the stored
    record, whose latitude is infinite. *)
Lemma infinite_latitude_is_persisted :
  let s := phoenixProvider "Infinity" "-112.074" in
  let svc := Memory.service "test-api-key" in
  let run := PropertyService.createProperty Memory.host svc phoenixInput s in
  validates phoenixInput = true
  /\ outcome (lookupFor Memory.host svc phoenixInput s)
     = Returned (phoenixSnapshot "Infinity" "-112.074")
  /\ isFinite (parseFloat "Infinity") = false
  /\ events run
     = [ WeatherLookup "Phoenix" "AZ" "85001";
         HttpGet "https://api.weatherstack.com/current"
           (lookupConfig (WeatherstackService.new "test-api-key") "Phoenix" "AZ" "85001");
         PrismaCreate (createData phoenixInput (phoenixSnapshot "Infinity" "-112.074")) ]
  /\ exists p, outcome run = Returned p
               /\ Property.lat p = PrimFloat.infinity
               /\ Memory.table (final run) = [p].
Proof.
  cbv zeta.
  split; [reflexivity |].
  split; [reflexivity |].
  split; [reflexivity |].
  split; [reflexivity |].
  eexists. split; [reflexivity |]. split; reflexivity.
Qed.

(* ================================================================== *)
(** * PropertyService.deleteProperty *)
(* ================================================================== *)

Section Delete.
Import PropertyService.
Context {S : Type} (self : PropertyService.t S).

(** C6.  [deleteProperty]: an identifier that is empty after trimming fails
    with the required-identifier error before storage is touched; an
    identifier that storage does not know fails with ["Property not found"]
    itself, not with a wrapped storage error; and [true] is returned only
    when the lookup found the record and the delete went through. *)
Theorem deleteProperty_outcomes (id : string) (s : S) :
  (trim id = EmptyString ->
     deleteProperty self id s = mkRun (Threw (Error "Property ID is required")) s [])
  /\ (trim id <> EmptyString ->
      forall s', Prisma.findUnique (prisma self) (trim id) s = (Returned None, s') ->
      deleteProperty self id s
      = mkRun (Threw (Error "Property not found")) s' [PrismaFindUnique (trim id)])
  /\ (forall b, outcome (deleteProperty self id s) = Returned b ->
      b = true
      /\ trim id <> EmptyString
      /\ exists p s1 q s2,
           Prisma.findUnique (prisma self) (trim id) s = (Returned (Some p), s1)
           /\ Prisma.delete (prisma self) (trim id) s1 = (Returned q, s2)
           /\ final (deleteProperty self id s) = s2
           /\ events (deleteProperty self id s)
              = [PrismaFindUnique (trim id); PrismaDelete (trim id)]).
Proof.
  unfold deleteProperty. rewrite blank_Some.
  split; [| split].
  - intros E. rewrite E. reflexivity.
  - intros N s' F.
    destruct (isEmpty (trim id)) eqn:E; [apply isEmpty_true in E; contradiction |].
    unfold tryCatch, bind, call. rewrite F. reflexivity.
  - intros b.
    destruct (isEmpty (trim id)) eqn:E; [discriminate |].
    assert (N : trim id <> EmptyString) by (intros T; rewrite T in E; discriminate).
    unfold tryCatch, bind, call.
    destruct (Prisma.findUnique (prisma self) (trim id) s) as [[[p|] | e] s1] eqn:F; cbn.
    + destruct (Prisma.delete (prisma self) (trim id) s1) as [[q | e] s2] eqn:D; cbn.
      * intros H. inversion H.
        split; [reflexivity |]. split; [exact N |].
        exists p, s1, q, s2. repeat split; solve [exact D | reflexivity].
      * destruct (instanceofError e && String.eqb (message e) "Property not found");
          discriminate.
    + discriminate.
    + destruct (instanceofError e && String.eqb (message e) "Property not found");
        discriminate.
Qed.

End Delete.

Lemma deleteProperty_outcomes_witness :
  PropertyService.deleteProperty (Memory.service "mock") "   " (stocked 3)
  = mkRun (Threw (Error "Property ID is required")) (stocked 3) []
  /\ PropertyService.deleteProperty (Memory.service "mock") " prop-7 " (stocked 3)
     = mkRun (Threw (Error "Property not found")) (stocked 3) [PrismaFindUnique "prop-7"].
Proof.
  split.
  - apply (deleteProperty_outcomes (Memory.service "mock") "   " (stocked 3)).
    reflexivity.
  - apply (deleteProperty_outcomes (Memory.service "mock") " prop-7 " (stocked 3)).
    + discriminate.
    + reflexivity.
Defined.

(** Deleting a stored record returns [true] and removes the row. *)
Example deleteProperty_stored :
  let run := PropertyService.deleteProperty (Memory.service "mock") " prop-2 " (stocked 3) in
  outcome run = Returned true
  /\ events run = [PrismaFindUnique "prop-2"; PrismaDelete "prop-2"]
  /\ map Property.id (Memory.table (final run)) = ["prop-1"; "prop-3"].
Proof.
  cbv zeta. split; [| split]; reflexivity.
Qed.

(* ================================================================== *)
(** * Filters of getProperties and getPropertiesCount *)
(* ================================================================== *)

Section Filters.
Import PropertyService.
Context {S : Type} (self : PropertyService.t S).

(** C10.  In [getProperties] and [getPropertiesCount] a city, state or
    zipCode filter given as the empty string is the same call as one
    without that filter. *)
Theorem empty_filter_is_no_filter (f : PropertyFilters.t) (s : S) :
  (getProperties self (withCity (Some "") f) s = getProperties self (withCity None f) s
   /\ getProperties self (withState (Some "") f) s = getProperties self (withState None f) s
   /\ getProperties self (withZipCode (Some "") f) s
      = getProperties self (withZipCode None f) s)
  /\ (getPropertiesCount self (withCity (Some "") f) s
      = getPropertiesCount self (withCity None f) s
      /\ getPropertiesCount self (withState (Some "") f) s
         = getPropertiesCount self (withState None f) s
      /\ getPropertiesCount self (withZipCode (Some "") f) s
         = getPropertiesCount self (withZipCode None f) s).
Proof.
  repeat split; reflexivity.
Qed.

End Filters.

(* ================================================================== *)
(** * WeatherstackService.generateCoordinates *)
(* ================================================================== *)

Section Coordinates.
Import WeatherstackService.

Lemma allFrom_spec (f : Z -> bool) (n : nat) (z : Z) :
  allFrom f n z = true -> forall r, z <= r < z + Z.of_nat n -> f r = true.
Proof.
  revert z. induction n as [|n IH]; intros z H r Hr.
  - lia.
  - simpl in H. apply andb_true_iff in H. destruct H as [Hz Hn].
    destruct (Z.eq_dec r z) as [-> | Hne]; [exact Hz |].
    apply (IH (z + 1) Hn). lia.
Qed.

(** The binary64 computation is checked on every value that the reduced
    hash can take. *)
Lemma latCheck_all : allFrom latCheck (Z.to_nat 25000) 0 = true.
Proof. vm_compute. reflexivity. Qed.

Lemma longCheck_all : allFrom longCheck (Z.to_nat 59000) 0 = true.
Proof. vm_compute. reflexivity. Qed.

Lemma latOf_range (r : Z) :
  0 <= r < 25000 ->
  latOf r = (ofZ (24000 + r) / 1000)%float
  /\ (24 <=? latOf r)%float = true /\ (latOf r <? 49)%float = true.
Proof.
  intros Hr.
  pose proof (allFrom_spec latCheck _ 0 latCheck_all r) as H.
  rewrite Z2Nat.id in H by lia.
  specialize (H ltac:(lia)).
  unfold latCheck, thousandths in H. cbv zeta in H.
  apply andb_true_iff in H. destruct H as [H Hlt].
  apply andb_true_iff in H. destruct H as [Heq Hle].
  apply FloatAxioms.Leibniz.eqb_spec in Heq.
  auto.
Qed.

Lemma longOf_range (r : Z) :
  0 <= r < 59000 ->
  longOf r = (ofZ (-125000 + r) / 1000)%float
  /\ (-125 <=? longOf r)%float = true /\ (longOf r <? -66)%float = true.
Proof.
  intros Hr.
  pose proof (allFrom_spec longCheck _ 0 longCheck_all r) as H.
  rewrite Z2Nat.id in H by lia.
  specialize (H ltac:(lia)).
  unfold longCheck, thousandths in H. cbv zeta in H.
  apply andb_true_iff in H. destruct H as [H Hlt].
  apply andb_true_iff in H. destruct H as [Heq Hle].
  apply FloatAxioms.Leibniz.eqb_spec in Heq.
  auto.
Qed.

Lemma reduced_hash_range (h n : Z) : 0 < n -> 0 <= Z.abs (Z.rem h n) < n.
Proof.
  intros Hn. split.
  - apply Z.abs_nonneg.
  - pose proof (Z.rem_bound_abs h n ltac:(lia)). lia.
Qed.

(** C8.  For every city the derived latitude lies in [24, 49) and the
    longitude in [-125, -66); each is the Number of a whole count of
    thousandths, that is, rounded to three decimal places; and the pair
    depends on the city only through its lower-cased name. *)
Theorem generateCoordinates_range (city state : string) :
  let c := generateCoordinates city state in
  ((exists k, 24000 <= k < 49000 /\ lat c = (ofZ k / 1000)%float)
   /\ (24 <=? lat c)%float = true /\ (lat c <? 49)%float = true)
  /\ ((exists k, -125000 <= k < -66000 /\ long c = (ofZ k / 1000)%float)
      /\ (-125 <=? long c)%float = true /\ (long c <? -66)%float = true)
  /\ (forall city' state',
        toLowerCase city' = toLowerCase city ->
        generateCoordinates city' state' = c).
Proof.
  cbv zeta.
  pose proof (reduced_hash_range (cityHash city) 25000 ltac:(lia)) as Hlat.
  pose proof (reduced_hash_range (cityHash city) 59000 ltac:(lia)) as Hlong.
  destruct (latOf_range _ Hlat) as (E1 & L1 & U1).
  destruct (longOf_range _ Hlong) as (E2 & L2 & U2).
  split; [| split].
  - change (lat (generateCoordinates city state))
      with (latOf (Z.abs (Z.rem (cityHash city) 25000))).
    split; [| split; assumption].
    exists (24000 + Z.abs (Z.rem (cityHash city) 25000)). split; [lia | exact E1].
  - change (long (generateCoordinates city state))
      with (longOf (Z.abs (Z.rem (cityHash city) 59000))).
    split; [| split; assumption].
    exists (-125000 + Z.abs (Z.rem (cityHash city) 59000)). split; [lia | exact E2].
  - intros city' state' H.
    unfold generateCoordinates, cityHash. now rewrite H.
Qed.

(** The two cities of the test file. *)
Example generateCoordinates_Phoenix_Miami :
  cityHash "Phoenix" = (-595742321)%Z
  /\ generateCoordinates "Phoenix" "AZ"
     = {| lat := (ofZ 41321 / 1000)%float; long := (ofZ (-105679) / 1000)%float |}
  /\ generateCoordinates "PHOENIX" "NY" = generateCoordinates "Phoenix" "AZ"
  /\ generateCoordinates "Miami" "FL"
     = {| lat := (ofZ 37545 / 1000)%float; long := (ofZ (-76455) / 1000)%float |}.
Proof.
  repeat split; reflexivity.
Qed.

End Coordinates.

(* ================================================================== *)
(** * PropertyService.getProperties over the in-memory table *)
(* ================================================================== *)

Section Ordering.

Variable le : Property.t -> Property.t -> bool.
Hypothesis le_total : forall a b, le a b = false -> le b a = true.

Let R (a b : Property.t) : Prop := le a b = true.

Lemma insert_perm (x : Property.t) (rows : list Property.t) :
  Permutation (x :: rows) (Memory.insert le x rows).
Proof.
  induction rows as [|y rest IH]; simpl.
  - apply Permutation_refl.
  - destruct (le x y).
    + apply Permutation_refl.
    + eapply perm_trans; [apply perm_swap |].
      now apply perm_skip.
Qed.

Lemma sortBy_perm (rows : list Property.t) :
  Permutation rows (Memory.sortBy le rows).
Proof.
  induction rows as [|x rest IH]; simpl.
  - apply perm_nil.
  - eapply perm_trans; [apply perm_skip, IH | apply insert_perm].
Qed.

Lemma insert_HdRel (x a : Property.t) (rows : list Property.t) :
  R a x -> HdRel R a rows -> HdRel R a (Memory.insert le x rows).
Proof.
  intros Hax H. destruct rows as [|y rest]; simpl.
  - now constructor.
  - destruct (le x y); constructor; [exact Hax | now inversion H].
Qed.

Lemma insert_Sorted (x : Property.t) (rows : list Property.t) :
  Sorted R rows -> Sorted R (Memory.insert le x rows).
Proof.
  induction rows as [|y rest IH]; simpl; intros H.
  - repeat constructor.
  - destruct (le x y) eqn:E.
    + constructor; [exact H | now constructor].
    + inversion H as [|? ? Hs Hh]; subst.
      constructor; [now apply IH |].
      apply insert_HdRel; [now apply le_total | exact Hh].
Qed.

Lemma sortBy_Sorted (rows : list Property.t) : Sorted R (Memory.sortBy le rows).
Proof.
  induction rows as [|x rest IH]; simpl.
  - constructor.
  - now apply insert_Sorted.
Qed.

End Ordering.

Section Prefix.
Context {A : Type} (R : A -> A -> Prop).

Lemma HdRel_firstn (n : nat) (a : A) (l : list A) :
  HdRel R a l -> HdRel R a (firstn n l).
Proof.
  intros H. destruct n, l; simpl; try constructor. now inversion H.
Qed.

Lemma Sorted_firstn (n : nat) (l : list A) : Sorted R l -> Sorted R (firstn n l).
Proof.
  revert l. induction n as [|n IH]; intros l H; simpl.
  - constructor.
  - destruct l as [|a l]; [constructor |].
    inversion H; subst.
    constructor; [now apply IH | now apply HdRel_firstn].
Qed.

End Prefix.

Section Limits.
Import PropertyService.

(** Whatever the storage client, [getProperties] makes one call, with the
    arguments [findManyArgs]. *)
Lemma getProperties_call {S : Type} (self : PropertyService.t S)
    (filters : PropertyFilters.t) (s : S) :
  events (getProperties self filters s) = [PrismaFindMany (findManyArgs filters)].
Proof.
  unfold getProperties, tryCatch, call. fold (findManyArgs filters).
  destruct (Prisma.findMany (prisma self) (findManyArgs filters) s) as [[rows | e] s'];
    reflexivity.
Qed.

Lemma getProperties_memory (ws : WeatherstackService.t) (filters : PropertyFilters.t)
    (w : Memory.World) :
  0 <= withDefault 0 (PropertyFilters.offset filters) ->
  getProperties (PropertyService.mk Memory.client ws) filters w
  = mkRun (Returned (Memory.select (findManyArgs filters) (Memory.table w))) w
      [PrismaFindMany (findManyArgs filters)].
Proof.
  intros H.
  unfold getProperties, tryCatch, call. fold (findManyArgs filters).
  cbn [prisma Prisma.findMany Memory.client]. unfold Memory.findMany.
  replace (Prisma.skip (findManyArgs filters) <? 0) with false.
  - reflexivity.
  - symmetry. apply Z.ltb_ge. exact H.
Qed.

Lemma filter_noWhere (rows : list Property.t) :
  filter (Memory.matches Prisma.noWhere) rows = rows.
Proof.
  induction rows as [|p rest IH]; simpl.
  - reflexivity.
  - now rewrite IH.
Qed.

Lemma select_default (rows : list Property.t) :
  Memory.select (findManyArgs PropertyFilters.empty) rows
  = firstn 50 (Memory.sortBy (Memory.precedes newestFirst) rows).
Proof.
  change (findManyArgs PropertyFilters.empty)
    with {| Prisma.where_ := Prisma.noWhere;
            Prisma.orderBy := newestFirst;
            Prisma.take := 50;
            Prisma.skip := 0 |}.
  unfold Memory.select, Memory.paginate.
  cbn [Prisma.take Prisma.skip Prisma.where_ Prisma.orderBy].
  rewrite filter_noWhere.
  reflexivity.
Qed.

Lemma newestFirst_Sorted (rows : list Property.t) :
  newestFirstOrder (Memory.sortBy (Memory.precedes newestFirst) rows).
Proof.
  assert (T : forall a b, Memory.precedes newestFirst a b = false ->
                          Memory.precedes newestFirst b a = true).
  { intros a b. unfold Memory.precedes, Memory.keyLeb; cbn.
    rewrite Z.leb_gt, Z.leb_le. lia. }
  pose proof (sortBy_Sorted _ T rows) as H.
  unfold newestFirstOrder.
  induction H as [|a l _ IH Hd]; constructor; [exact IH |].
  destruct Hd as [|b l Hab]; constructor.
  unfold Memory.precedes, Memory.keyLeb in Hab; cbn in Hab.
  apply Z.leb_le in Hab. lia.
Qed.

(** C5.  Over the in-memory table: with [limit: 200] the storage call asks
    for 100 rows and at most 100 come back, however many match; with no
    argument the call asks for 50 rows from offset 0 by creation time,
    newest first, and what comes back is the first 50 rows of the table
    in that order. *)
Theorem getProperties_limits (ws : WeatherstackService.t) (w : Memory.World) :
  let svc := PropertyService.mk Memory.client ws in
  (forall filters,
      PropertyFilters.limit filters = Some 200 ->
      0 <= withDefault 0 (PropertyFilters.offset filters) ->
      exists rows,
        getProperties svc filters w
        = mkRun (Returned rows) w [PrismaFindMany (findManyArgs filters)]
        /\ Prisma.take (findManyArgs filters) = 100
        /\ (List.length rows <= 100)%nat)
  /\ (exists rows,
        getProperties svc PropertyFilters.empty w
        = mkRun (Returned rows) w
            [PrismaFindMany
               {| Prisma.where_ := Prisma.noWhere;
                  Prisma.orderBy := newestFirst;
                  Prisma.take := 50;
                  Prisma.skip := 0 |}]
        /\ (List.length rows <= 50)%nat
        /\ newestFirstOrder rows
        /\ exists ordered,
             Permutation (Memory.table w) ordered
             /\ newestFirstOrder ordered
             /\ rows = firstn 50 ordered).
Proof.
  cbv zeta. split.
  - intros filters L O.
    exists (Memory.select (findManyArgs filters) (Memory.table w)).
    split; [now apply getProperties_memory |].
    assert (T : Prisma.take (findManyArgs filters) = 100).
    { unfold findManyArgs; cbn [Prisma.take]. rewrite L. reflexivity. }
    split; [exact T |].
    unfold Memory.select, Memory.paginate. rewrite T.
    cbn [Z.leb Z.compare]. apply firstn_le_length.
  - set (ordered := Memory.sortBy (Memory.precedes newestFirst) (Memory.table w)).
    pose proof (newestFirst_Sorted (Memory.table w)) as So. fold ordered in So.
    exists (firstn 50 ordered).
    split; [| split; [| split]].
    + rewrite (getProperties_memory ws PropertyFilters.empty w) by (cbn; lia).
      rewrite select_default. reflexivity.
    + apply firstn_le_length.
    + now apply Sorted_firstn.
    + exists ordered. split; [apply sortBy_perm | split; [exact So | reflexivity]].
Qed.

End Limits.

Lemma getProperties_limits_witness :
  exists rows,
    PropertyService.getProperties (Memory.service "mock") limit200 (stocked 120)
    = mkRun (Returned rows) (stocked 120) [PrismaFindMany (findManyArgs limit200)]
    /\ Prisma.take (findManyArgs limit200) = 100
    /\ (List.length rows <= 100)%nat.
Proof.
  apply (getProperties_limits (WeatherstackService.new "mock") (stocked 120)).
  - reflexivity.
  - cbn. lia.
Defined.

(** With 120 rows stored, [limit: 200] returns exactly 100 of them, and the
    default listing the 50 newest, newest first. *)
Example getProperties_on_120_rows :
  List.length
    (returnedIds (PropertyService.getProperties (Memory.service "mock") limit200 (stocked 120)))
  = 100%nat
  /\ firstn 3
       (returnedIds
          (PropertyService.getProperties (Memory.service "mock") PropertyFilters.empty
             (stocked 120)))
     = ["prop-120"; "prop-119"; "prop-118"]
  /\ List.length
       (returnedIds
          (PropertyService.getProperties (Memory.service "mock") PropertyFilters.empty
             (stocked 120)))
     = 50%nat.
Proof.
  vm_compute. repeat split.
Qed.

(* ================================================================== *)
(** * The repository's tests, replayed *)
(* ================================================================== *)

Section Replay.
Import ValidationService.

Example validation_collects_all_errors :
  validatePropertyInput fourViolations
  = {| isValid := false;
       errors := [cityError; streetError; stateError; zipCodeError] |}.
Proof. reflexivity. Qed.

Example createProperty_combines_the_messages :
  outcome (PropertyService.createProperty Memory.host (Memory.service "test-api-key")
             fourViolations Memory.offline)
  = Threw (Error ("Validation failed: City is required, Street is required, "
                  ++ "Valid US state abbreviation is required (e.g., CA, NY, TX), "
                  ++ "Valid 5-digit zip code is required")).
Proof. reflexivity. Qed.

Example sanitizeInput_trims_and_uppercases :
  sanitizeInput paddedState = phoenixInput.
Proof. reflexivity. Qed.

Example provider_error_codes :
  let lookup data :=
    outcome (WeatherstackService.getCurrentWeather Memory.host
               (WeatherstackService.new "test-api-key") "Phoenix" "AZ" "85001"
               (answering data)) in
  lookup (errorBody 101 "You have not supplied a valid API Access Key.")
  = Threw (Error "Invalid Weatherstack API key")
  /\ lookup (errorBody 429 "Limit reached.")
     = Threw (Error "API request limit reached for this month")
  /\ lookup (errorBody 601 "Bad query.")
     = Threw (Error "Invalid location: Phoenix, AZ 85001")
  /\ lookup (errorBody 999 "Unknown.")
     = Threw (Error "Weatherstack API error (999): Unknown.").
Proof. cbv zeta. repeat split; reflexivity. Qed.

Example createProperty_happy_path :
  let run := PropertyService.createProperty Memory.host (Memory.service "test-api-key")
               paddedState (phoenixProvider "33.448" "-112.074") in
  events run
  = [ WeatherLookup "Phoenix" "AZ" "85001";
      HttpGet "https://api.weatherstack.com/current"
        (lookupConfig (WeatherstackService.new "test-api-key") "Phoenix" "AZ" "85001");
      PrismaCreate (createData paddedState (phoenixSnapshot "33.448" "-112.074")) ]
  /\ exists p, outcome run = Returned p
               /\ Property.city p = "Phoenix"
               /\ Property.state p = "AZ"
               /\ Property.lat p = parseFloat "33.448"
               /\ Property.long p = parseFloat "-112.074".
Proof.
  cbv zeta. split; [reflexivity |].
  eexists. repeat split; reflexivity.
Qed.

Example createProperty_provider_unreachable :
  PropertyService.createProperty Memory.host (Memory.service "test-api-key")
    phoenixInput Memory.offline
  = mkRun
      (Threw (Error "Failed to create property: Weatherstack service error: Network Error"))
      Memory.offline
      [ WeatherLookup "Phoenix" "AZ" "85001";
        HttpGet "https://api.weatherstack.com/current"
          (lookupConfig (WeatherstackService.new "test-api-key") "Phoenix" "AZ" "85001") ].
Proof. reflexivity. Qed.

End Replay.

(* ================================================================== *)
(** * Further properties: ValidationService *)
(* ================================================================== *)

Section ValidationRules.
Import ValidationService.

Lemma trimmed_fixed (x : option string) : trim (trimmed x) = trimmed x.
Proof.
  destruct x as [s|]; simpl.
  - apply trim_idempotent.
  - reflexivity.
Qed.

Lemma pushIf_nil (b : bool) (msg : string) (l : list string) :
  pushIf b msg l = [] <-> b = false /\ l = [].
Proof.
  unfold pushIf. destruct b.
  - split; [intros H | intros [H _]; discriminate H].
    now apply app_eq_nil in H.
  - tauto.
Qed.

Lemma isValid_iff (input : CreatePropertyInput.t) :
  isValid (validatePropertyInput input) = true <->
  blank (CreatePropertyInput.city input) = false
  /\ blank (CreatePropertyInput.street input) = false
  /\ negb (truthy (CreatePropertyInput.state input))
     || negb (includes US_STATES (orEmpty (CreatePropertyInput.state input))) = false
  /\ negb (truthy (CreatePropertyInput.zipCode input))
     || negb (isFiveDigits (orEmpty (CreatePropertyInput.zipCode input))) = false.
Proof.
  unfold validatePropertyInput; cbn [isValid].
  rewrite Nat.eqb_eq, length_zero_iff_nil, !pushIf_nil.
  tauto.
Qed.

(** X1.  Each of the four messages is reported exactly when its own rule is
    violated, whatever the other fields are, and nothing else is ever
    reported. *)
Theorem validatePropertyInput_reports_each_rule (input : CreatePropertyInput.t) :
  let reported := errors (validatePropertyInput input) in
  (In cityError reported <-> blank (CreatePropertyInput.city input) = true)
  /\ (In streetError reported <-> blank (CreatePropertyInput.street input) = true)
  /\ (In stateError reported <->
      truthy (CreatePropertyInput.state input) = false
      \/ ~ In (orEmpty (CreatePropertyInput.state input)) US_STATES)
  /\ (In zipCodeError reported <->
      truthy (CreatePropertyInput.zipCode input) = false
      \/ isFiveDigits (orEmpty (CreatePropertyInput.zipCode input)) = false)
  /\ (forall msg, In msg reported ->
        In msg [cityError; streetError; stateError; zipCodeError]).
Proof.
  cbv zeta. unfold validatePropertyInput; cbn [errors].
  rewrite !pushIf_In. cbn [In].
  repeat split.
  - intros [[[[[] | [H _]] | [_ E]] | [_ E]] | [_ E]];
      try discriminate E; exact H.
  - intros H. left. left. left. right. now split.
  - intros [[[[[] | [_ E]] | [H _]] | [_ E]] | [_ E]];
      try discriminate E; exact H.
  - intros H. left. left. right. now split.
  - intros [[[[[] | [_ E]] | [_ E]] | [H _]] | [_ E]];
      try discriminate E.
    apply orb_true_iff in H. rewrite !negb_true_iff in H.
    destruct H as [H | H]; [now left | right].
    rewrite <- includes_In. congruence.
  - intros H. left. right. split; [| reflexivity].
    apply orb_true_iff. rewrite !negb_true_iff.
    destruct H as [H | H]; [now left | right].
    rewrite <- includes_In in H. now destruct (includes US_STATES _).
  - intros [[[[[] | [_ E]] | [_ E]] | [_ E]] | [H _]];
      try discriminate E.
    apply orb_true_iff in H. rewrite !negb_true_iff in H. exact H.
  - intros H. right. split; [| reflexivity].
    apply orb_true_iff. rewrite !negb_true_iff. exact H.
  - intros msg H. rewrite !pushIf_In in H. cbn [In] in H.
    destruct H as [[[[[] | [_ ->]] | [_ ->]] | [_ ->]] | [_ ->]]; auto.
Qed.

(** The four tests that a sanitized submission passes, on the raw fields. *)
Lemma validates_fields (input : CreatePropertyInput.t) :
  validates input = true <->
  trimmed (CreatePropertyInput.city input) <> EmptyString
  /\ trimmed (CreatePropertyInput.street input) <> EmptyString
  /\ In (trimmed (option_map toUpperCase (CreatePropertyInput.state input))) US_STATES
  /\ isFiveDigits (trimmed (CreatePropertyInput.zipCode input)) = true.
Proof.
  unfold validates. rewrite isValid_iff.
  unfold sanitizeInput.
  cbn [CreatePropertyInput.city CreatePropertyInput.street
       CreatePropertyInput.state CreatePropertyInput.zipCode].
  rewrite !blank_Some, !trimmed_fixed.
  set (c := trimmed (CreatePropertyInput.city input)).
  set (st := trimmed (CreatePropertyInput.street input)).
  set (u := trimmed (option_map toUpperCase (CreatePropertyInput.state input))).
  set (z := trimmed (CreatePropertyInput.zipCode input)).
  assert (Empty : includes US_STATES EmptyString = false) by reflexivity.
  rewrite !orb_false_iff, !negb_false_iff. cbn [orEmpty truthy].
  rewrite !negb_true_iff, <- (includes_In US_STATES u).
  rewrite <- !not_true_iff_false, !isEmpty_true.
  split.
  - intros (C & St & [_ U] & [_ Z]). auto.
  - intros (C & St & U & Z). repeat split; auto.
    + intros ->. congruence.
    + intros ->. discriminate Z.
Qed.

(** X2.  What [createProperty] accepts, in terms of the raw submission: it
    gets past validation, that is, it does not fail with the validation
    error and without a call, exactly when the city and the street are not
    blank, the state is in [US_STATES] once upper-cased and trimmed, and
    the zip code is five digits once trimmed. *)
Theorem createProperty_accepts_iff {S : Type} (host : Host S)
    (self : PropertyService.t S) (input : CreatePropertyInput.t) (s : S) :
  PropertyService.createProperty host self input s
  <> mkRun (Threw (validationError input)) s []
  <->
  trimmed (CreatePropertyInput.city input) <> EmptyString
  /\ trimmed (CreatePropertyInput.street input) <> EmptyString
  /\ In (trimmed (option_map toUpperCase (CreatePropertyInput.state input))) US_STATES
  /\ isFiveDigits (trimmed (CreatePropertyInput.zipCode input)) = true.
Proof.
  rewrite <- validates_fields.
  destruct (validates input) eqn:V.
  - split; [reflexivity |]. intros _ H.
    rewrite (createProperty_valid host self input s V) in H. cbv zeta in H.
    destruct (outcome (lookupFor host self input s)) as [wd | e];
      [destruct (coordinatesAreNaN wd) |]; discriminate H.
  - split; [| discriminate].
    intros H. exfalso. apply H. now apply createProperty_invalid.
Qed.

End ValidationRules.

(* ================================================================== *)
(** * Further properties: WeatherstackService *)
(* ================================================================== *)

Section LiveLookup.
Import WeatherstackService.
Context {S : Type} (host : Host S).

Lemma not_mock_key (self : t) :
  ~ isMockKey self -> apiKey self <> "demo_key" /\ apiKey self <> "mock".
Proof. unfold isMockKey. tauto. Qed.

Lemma getCurrentWeather_live (self : t) (city state zipCode : string) (s : S) :
  ~ isMockKey self ->
  getCurrentWeather host self city state zipCode s
  = liveLookup host self city state zipCode s.
Proof.
  intros N. destruct (not_mock_key self N) as [N1 N2].
  unfold getCurrentWeather.
  destruct (String.eqb (apiKey self) "demo_key" || String.eqb (apiKey self) "mock") eqn:E;
    [| reflexivity].
  apply mock_key_cases in E. tauto.
Qed.

(** X3.  An error object in the provider's answer decides the outcome,
    whatever else the body holds: the lookup fails with the message for the
    code (key, monthly limit, location, request) or with a message that
    quotes an unknown code and the provider's text, and the [catch] block
    leaves that error as it is. *)
Theorem getCurrentWeather_provider_error (self : t) (city state zipCode : string)
    (s s' : S) (data : Axios.ResponseData) (e : Axios.ApiError) :
  ~ isMockKey self ->
  axios_get host (baseUrl self) (lookupConfig self city state zipCode) s
  = (Returned data, s') ->
  Axios.error data = Some e ->
  exists m,
    getCurrentWeather host self city state zipCode s
    = mkRun (Threw (Error m)) s'
        [HttpGet (baseUrl self) (lookupConfig self city state zipCode)]
    /\ (Axios.code e = 101 -> m = "Invalid Weatherstack API key")
    /\ (Axios.code e = 429 -> m = "API request limit reached for this month")
    /\ (Axios.code e = 601 -> m = "Invalid location: " ++ requestQuery city state zipCode)
    /\ (Axios.code e = 615 -> m = "Weatherstack API request failed")
    /\ (~ In (Axios.code e) [101; 429; 601; 615] ->
        m = "Weatherstack API error (" ++ intToString (Axios.code e) ++ "): "
            ++ Axios.info e).
Proof.
  intros N G E.
  exists (apiErrorMessage (requestQuery city state zipCode) e).
  split.
  - rewrite (getCurrentWeather_live self city state zipCode s N).
    unfold liveLookup, tryCatch, bind, call.
    fold (lookupConfig self city state zipCode).
    rewrite G. cbn [outcome final events]. rewrite E. reflexivity.
  - unfold apiErrorMessage.
    repeat split; intros H.
    + now rewrite H.
    + now rewrite H.
    + now rewrite H.
    + now rewrite H.
    + cbn [In] in H.
      destruct (Z.eqb_spec (Axios.code e) 101) as [Q0 | Q0];
        [exfalso; apply H; rewrite Q0; tauto |].
      destruct (Z.eqb_spec (Axios.code e) 429) as [Q1 | Q1];
        [exfalso; apply H; rewrite Q1; tauto |].
      destruct (Z.eqb_spec (Axios.code e) 601) as [Q2 | Q2];
        [exfalso; apply H; rewrite Q2; tauto |].
      destruct (Z.eqb_spec (Axios.code e) 615) as [Q3 | Q3];
        [exfalso; apply H; rewrite Q3; tauto |].
      reflexivity.
Qed.

(** X4.  A live lookup returns a snapshot exactly when the provider answered
    with a body that has no error object, no [success: false], and both the
    current and the location section; the snapshot is then those sections
    as received. *)
Theorem getCurrentWeather_live_returns (self : t) (city state zipCode : string)
    (s : S) (weatherData : WeatherData.t) :
  ~ isMockKey self ->
  (outcome (getCurrentWeather host self city state zipCode s) = Returned weatherData
   <-> exists data s',
         axios_get host (baseUrl self) (lookupConfig self city state zipCode) s
         = (Returned data, s')
         /\ wellFormedBody data
         /\ Axios.location data = Some (WeatherData.location weatherData)
         /\ Axios.current data = Some (WeatherData.current weatherData)
         /\ Axios.request data = WeatherData.request weatherData).
Proof.
  intros N.
  rewrite (getCurrentWeather_live self city state zipCode s N).
  unfold liveLookup, tryCatch, bind, call, wellFormedBody.
  fold (lookupConfig self city state zipCode).
  destruct (axios_get host (baseUrl self) (lookupConfig self city state zipCode) s)
    as [[data | e] s1]; cbn [outcome final events].
  - destruct (Axios.error data) as [e|] eqn:E; cbn.
    { split; [discriminate |].
      intros (d & s2 & [= <- <-] & (E' & _) & _). congruence. }
    destruct (Axios.success data) as [[|]|] eqn:Su; cbn;
      destruct (Axios.current data) as [cur|] eqn:C; cbn;
      destruct (Axios.location data) as [loc|] eqn:L; cbn;
      (split;
       [ intros H; try discriminate H;
         injection H as <-; exists data, s1; cbn;
         rewrite ?E, ?Su, ?C, ?L; repeat split; congruence
       | intros (d & s2 & [= <- <-] & (_ & Su' & C' & L') & L2 & C2 & R);
         try congruence;
         destruct weatherData as [rq lo cu]; cbn in *; congruence ]).
  - split; [discriminate |].
    intros (d & s2 & H & _). discriminate H.
Qed.

(** X5.  When the request itself fails with an Axios error, the lookup fails
    with a plain [Error]: a timeout is reported as such whatever the HTTP
    status, then 401, 429, 403 and 404 have messages of their own, and any
    other failure is wrapped with its message. *)
Theorem getCurrentWeather_transport_failure (self : t) (city state zipCode : string)
    (s s' : S) (code : option string) (status : option Z) (msg : string) :
  ~ isMockKey self ->
  axios_get host (baseUrl self) (lookupConfig self city state zipCode) s
  = (Threw (AxiosError code status msg), s') ->
  exists m,
    getCurrentWeather host self city state zipCode s
    = mkRun (Threw (Error m)) s'
        [HttpGet (baseUrl self) (lookupConfig self city state zipCode)]
    /\ (code = Some "ECONNABORTED" -> m = "Weatherstack API timeout - please try again")
    /\ (code <> Some "ECONNABORTED" ->
        (status = Some 401 -> m = "Unauthorized - Invalid Weatherstack API key")
        /\ (status = Some 429 -> m = "Too many requests - Weatherstack rate limit exceeded")
        /\ (status = Some 403 -> m = "Forbidden - Current plan does not support this feature")
        /\ (status = Some 404 -> m = "Weatherstack API endpoint not found")
        /\ (~ In status [Some 401; Some 429; Some 403; Some 404] ->
            m = "Weatherstack service error: " ++ msg)).
Proof.
  intros N G.
  rewrite (getCurrentWeather_live self city state zipCode s N).
  unfold liveLookup, tryCatch, bind, call.
  fold (lookupConfig self city state zipCode).
  rewrite G. cbn [outcome final events throw app translateError].
  assert (C : codeIs code "ECONNABORTED" = true <-> code = Some "ECONNABORTED").
  { destruct code as [c|]; cbn; [rewrite String.eqb_eq |]; split; congruence. }
  assert (St : forall n, statusIs status n = true <-> status = Some n).
  { intros n. destruct status as [x|]; cbn; [rewrite Z.eqb_eq |]; split; congruence. }
  destruct (codeIs code "ECONNABORTED") eqn:EC.
  { eexists. split; [reflexivity |]. split; [reflexivity |].
    intros H. exfalso. apply H. now apply C. }
  assert (NC : code <> Some "ECONNABORTED").
  { intros H. apply C in H. discriminate H. }
  destruct (statusIs status 401) eqn:S1.
  { apply St in S1. subst status. eexists. split; [reflexivity |].
    split; [tauto |]. intros _.
    repeat split; intros H; try discriminate H; try reflexivity.
    exfalso. apply H. now left. }
  destruct (statusIs status 429) eqn:S2.
  { apply St in S2. subst status. eexists. split; [reflexivity |].
    split; [tauto |]. intros _.
    repeat split; intros H; try discriminate H; try reflexivity.
    exfalso. apply H. right. now left. }
  destruct (statusIs status 403) eqn:S3.
  { apply St in S3. subst status. eexists. split; [reflexivity |].
    split; [tauto |]. intros _.
    repeat split; intros H; try discriminate H; try reflexivity.
    exfalso. apply H. right. right. now left. }
  destruct (statusIs status 404) eqn:S4.
  { apply St in S4. subst status. eexists. split; [reflexivity |].
    split; [tauto |]. intros _.
    repeat split; intros H; try discriminate H; try reflexivity.
    exfalso. apply H. right. right. right. now left. }
  eexists. split; [reflexivity |].
  split; [tauto |]. intros _.
  repeat split; intros H; try reflexivity;
    apply St in H; congruence.
Qed.

End LiveLookup.

Lemma getCurrentWeather_provider_error_witness :
  WeatherstackService.getCurrentWeather Memory.host
    (WeatherstackService.new "test-api-key") "Phoenix" "AZ" "85001"
    (answering (errorBody 999 "Unknown."))
  = mkRun (Threw (Error "Weatherstack API error (999): Unknown."))
      (answering (errorBody 999 "Unknown."))
      [HttpGet "https://api.weatherstack.com/current"
         (lookupConfig (WeatherstackService.new "test-api-key") "Phoenix" "AZ" "85001")].
Proof.
  destruct (getCurrentWeather_provider_error Memory.host
              (WeatherstackService.new "test-api-key") "Phoenix" "AZ" "85001"
              (answering (errorBody 999 "Unknown.")) (answering (errorBody 999 "Unknown."))
              (errorBody 999 "Unknown.")
              {| Axios.code := 999; Axios.info := "Unknown." |})
    as (m & R & _ & _ & _ & _ & U).
  - intros [H | H]; discriminate H.
  - reflexivity.
  - reflexivity.
  - rewrite R, U.
    + reflexivity.
    + cbn. intuition discriminate.
Defined.

Lemma getCurrentWeather_live_returns_witness :
  outcome (WeatherstackService.getCurrentWeather Memory.host
             (WeatherstackService.new "test-api-key") "Phoenix" "AZ" "85001"
             (phoenixProvider "33.448" "-112.074"))
  = Returned (phoenixSnapshot "33.448" "-112.074").
Proof.
  apply (getCurrentWeather_live_returns Memory.host
           (WeatherstackService.new "test-api-key") "Phoenix" "AZ" "85001"
           (phoenixProvider "33.448" "-112.074") (phoenixSnapshot "33.448" "-112.074")).
  - intros [H | H]; discriminate H.
  - exists (phoenixBody "33.448" "-112.074"), (phoenixProvider "33.448" "-112.074").
    split; [reflexivity |].
    split; [| repeat split].
    repeat split; discriminate.
Defined.

Lemma getCurrentWeather_transport_failure_witness :
  outcome (WeatherstackService.getCurrentWeather Memory.host
             (WeatherstackService.new "test-api-key") "Phoenix" "AZ" "85001"
             (rejecting (AxiosError (Some "ECONNABORTED") (Some 401) "timeout of 15000ms exceeded")))
  = Threw (Error "Weatherstack API timeout - please try again").
Proof.
  destruct (getCurrentWeather_transport_failure Memory.host
              (WeatherstackService.new "test-api-key") "Phoenix" "AZ" "85001"
              (rejecting (AxiosError (Some "ECONNABORTED") (Some 401) "timeout of 15000ms exceeded"))
              (rejecting (AxiosError (Some "ECONNABORTED") (Some 401) "timeout of 15000ms exceeded"))
              (Some "ECONNABORTED") (Some 401) "timeout of 15000ms exceeded")
    as (m & R & T & _).
  - intros [H | H]; discriminate H.
  - reflexivity.
  - rewrite R, T; reflexivity.
Defined.

Section Adapter2.
Import WeatherstackService.
Context {S : Type} (host : Host S).

Lemma returns_ret {A : Type} (a : A) : returns (@ret S A a).
Proof. intros s. now exists a. Qed.

Lemma returns_ask {A : Type} (f : S -> A * S) : returns (ask f).
Proof. intros s. unfold ask. destruct (f s) as [a s']. now exists a. Qed.

Lemma returns_bind {A B : Type} (m : M S A) (k : A -> M S B) :
  returns m -> (forall a, returns (k a)) -> returns (bind m k).
Proof.
  intros Hm Hk s. unfold bind.
  destruct (Hm s) as [a Ha]. rewrite Ha.
  destruct (Hk a (final (m s))) as [b Hb]. now exists b.
Qed.

Lemma getMockWeatherData_returns (self : t) (city state zipCode : string) :
  returns (getMockWeatherData host self city state zipCode).
Proof.
  unfold getMockWeatherData.
  repeat (apply returns_bind; [apply returns_ask | intros ?]).
  apply returns_ret.
Qed.

Lemma translateError_plain (error : Thrown) :
  isAxiosError (translateError error) = false.
Proof.
  destruct error as [m | code status m |]; cbn; try reflexivity.
  repeat match goal with
         | |- context [if ?b then _ else _] => destruct b
         end; reflexivity.
Qed.

(** X6.  Whatever the key and whatever the runtime does, [getCurrentWeather]
    makes at most one request and never lets an Axios error out; with a
    mock key it always returns. *)
Theorem getCurrentWeather_never_throws_AxiosError (self : t)
    (city state zipCode : string) (s : S) :
  let run := getCurrentWeather host self city state zipCode s in
  (forall error, outcome run = Threw error -> isAxiosError error = false)
  /\ (List.length (events run) <= 1)%nat
  /\ (isMockKey self -> exists weatherData, outcome run = Returned weatherData).
Proof.
  cbv zeta. split; [| split].
  - intros error. unfold getCurrentWeather.
    destruct (String.eqb (apiKey self) "demo_key" || String.eqb (apiKey self) "mock").
    + destruct (getMockWeatherData_returns self city state zipCode s) as [wd H].
      rewrite H. discriminate.
    + unfold liveLookup, tryCatch, bind, call.
      destruct (axios_get host _ _ s) as [[data | e] s']; cbn.
      * destruct (Axios.error data); cbn; [intros [= <-]; reflexivity |].
        destruct (Axios.success data) as [[|]|]; cbn;
          destruct (Axios.current data); cbn;
          destruct (Axios.location data); cbn;
          intros H; try discriminate H; injection H as <-; reflexivity.
      * intros [= <-]. apply translateError_plain.
  - pose proof (getCurrentWeather_events host self city state zipCode s) as F.
    unfold getCurrentWeather in *.
    destruct (String.eqb (apiKey self) "demo_key" || String.eqb (apiKey self) "mock").
    + rewrite getMockWeatherData_silent. cbn. lia.
    + rewrite liveLookup_events. cbn. lia.
  - intros K. unfold isMockKey in K. apply mock_key_cases in K.
    unfold getCurrentWeather. rewrite K. apply getMockWeatherData_returns.
Qed.

(** X7.  [testConnection] never throws.  With a mock key it answers [true]
    without a request; otherwise it sends one request, for "New York" with
    a ten-second timeout, and answers [true] exactly when the provider's
    body has no error object and has both sections. *)
Theorem testConnection_reports (self : t) (s : S) :
  let run := testConnection host self s in
  (exists b, outcome run = Returned b)
  /\ (isMockKey self -> run = mkRun (Returned true) s [])
  /\ (~ isMockKey self ->
      events run = [HttpGet (baseUrl self) (probeConfig self)]
      /\ (outcome run = Returned true <->
          exists data s',
            axios_get host (baseUrl self) (probeConfig self) s = (Returned data, s')
            /\ Axios.error data = None
            /\ Axios.current data <> None
            /\ Axios.location data <> None)).
Proof.
  cbv zeta. unfold testConnection.
  destruct (String.eqb (apiKey self) "demo_key" || String.eqb (apiKey self) "mock") eqn:K.
  - apply mock_key_cases in K.
    split; [now exists true |]. split; [reflexivity |].
    intros N. exfalso. apply N. exact K.
  - assert (N : ~ isMockKey self).
    { intros H. apply mock_key_cases in H. congruence. }
    unfold tryCatch, bind, call. fold (probeConfig self).
    destruct (axios_get host (baseUrl self) (probeConfig self) s) as [[data | e] s1];
      cbn [outcome final events].
    + destruct (Axios.error data) as [e|] eqn:E; cbn.
      { split; [now exists false |]. split; [intros H; contradiction |]. intros _.
        split; [reflexivity |]. split; [discriminate |].
        intros (d & s2 & [= <- <-] & E' & _). congruence. }
      destruct (Axios.current data) as [cur|] eqn:C;
        destruct (Axios.location data) as [loc|] eqn:L; cbn;
        (split; [eexists; reflexivity |]); (split; [intros H; contradiction |]); intros _;
        (split; [reflexivity |]);
        (split;
         [ intros H; try discriminate H; exists data, s1;
           rewrite ?E, ?C, ?L; repeat split; congruence
         | intros (d & s2 & [= <- <-] & _ & C' & L'); congruence ]).
    + cbn. split; [now exists false |]. split; [intros H; contradiction |]. intros _.
      split; [reflexivity |]. split; [discriminate |].
      intros (d & s2 & H & _). discriminate H.
Qed.

(** X8.  The time zone and the UTC offset of the synthetic snapshot always
    agree.  A state that names a member of [Object.prototype] finds that
    member in both tables, so both fields are the member and not text.
    For every other state the pair is one of Los Angeles -8, New York -5,
    Chicago -6 and Phoenix -7, and a state outside CA, NY, FL, TX, IL and
    AZ gets New York and -5. *)
Theorem timezone_and_offset_agree (state : string) :
  (In state prototypeMembers ->
     getTimezone state = WeatherData.PrototypeMember state
     /\ getUtcOffset state = WeatherData.PrototypeMember state)
  /\ (~ In state prototypeMembers ->
      In (getTimezone state, getUtcOffset state)
         [ (WeatherData.Str "America/Los_Angeles", WeatherData.Str "-8.0");
           (WeatherData.Str "America/New_York", WeatherData.Str "-5.0");
           (WeatherData.Str "America/Chicago", WeatherData.Str "-6.0");
           (WeatherData.Str "America/Phoenix", WeatherData.Str "-7.0") ]
      /\ (~ In state ["CA"; "NY"; "FL"; "TX"; "IL"; "AZ"] ->
          getTimezone state = WeatherData.Str "America/New_York"
          /\ getUtcOffset state = WeatherData.Str "-5.0")).
Proof.
  assert (Listed : forall code, In code ["CA"; "NY"; "FL"; "TX"; "IL"; "AZ"] ->
                     ~ In code prototypeMembers).
  { intros code H P. rewrite <- includes_In in P.
    cbn [In] in H.
    destruct H as [<- | [<- | [<- | [<- | [<- | [<- | []]]]]]]; discriminate P. }
  unfold getTimezone, getUtcOffset, lookup. cbn [own].
  destruct (String.eqb_spec "CA" state) as [<- | N1].
  { split; [intros P; exfalso; revert P; apply Listed; cbn; tauto |].
    intros _. cbn. intuition congruence. }
  destruct (String.eqb_spec "NY" state) as [<- | N2].
  { split; [intros P; exfalso; revert P; apply Listed; cbn; tauto |].
    intros _. cbn. intuition congruence. }
  destruct (String.eqb_spec "FL" state) as [<- | N3].
  { split; [intros P; exfalso; revert P; apply Listed; cbn; tauto |].
    intros _. cbn. intuition congruence. }
  destruct (String.eqb_spec "TX" state) as [<- | N4].
  { split; [intros P; exfalso; revert P; apply Listed; cbn; tauto |].
    intros _. cbn. intuition congruence. }
  destruct (String.eqb_spec "IL" state) as [<- | N5].
  { split; [intros P; exfalso; revert P; apply Listed; cbn; tauto |].
    intros _. cbn. intuition congruence. }
  destruct (String.eqb_spec "AZ" state) as [<- | N6].
  { split; [intros P; exfalso; revert P; apply Listed; cbn; tauto |].
    intros _. cbn. intuition congruence. }
  destruct (includes prototypeMembers state) eqn:P; cbn [orDefault].
  - split; [intros _; split; reflexivity |].
    intros N. exfalso. apply N. now apply includes_In.
  - split.
    + intros H. apply includes_In in H. congruence.
    + intros _. split; [| intros _; split; reflexivity].
      cbn [In]. right. left. reflexivity.
Qed.

End Adapter2.

Lemma getCurrentWeather_never_throws_AxiosError_witness :
  exists weatherData,
    outcome (WeatherstackService.getCurrentWeather Memory.host
               (WeatherstackService.new "mock") "Phoenix" "AZ" "85001" Memory.offline)
    = Returned weatherData.
Proof.
  apply (getCurrentWeather_never_throws_AxiosError Memory.host
           (WeatherstackService.new "mock") "Phoenix" "AZ" "85001" Memory.offline).
  right. reflexivity.
Defined.

Lemma testConnection_reports_witness :
  WeatherstackService.testConnection Memory.host (WeatherstackService.new "mock")
    Memory.offline
  = mkRun (Returned true) Memory.offline []
  /\ outcome (WeatherstackService.testConnection Memory.host
                (WeatherstackService.new "test-api-key")
                (phoenixProvider "33.448" "-112.074"))
     = Returned true.
Proof.
  split.
  - apply (testConnection_reports Memory.host (WeatherstackService.new "mock")
             Memory.offline).
    right. reflexivity.
  - apply (testConnection_reports Memory.host (WeatherstackService.new "test-api-key")
             (phoenixProvider "33.448" "-112.074")).
    + intros [H | H]; discriminate H.
    + exists (phoenixBody "33.448" "-112.074"), (phoenixProvider "33.448" "-112.074").
      repeat split; discriminate.
Defined.

Lemma timezone_and_offset_agree_witness :
  (WeatherstackService.getTimezone "WA" = WeatherData.Str "America/New_York"
   /\ WeatherstackService.getUtcOffset "WA" = WeatherData.Str "-5.0")
  /\ WeatherstackService.getTimezone "constructor"
     = WeatherData.PrototypeMember "constructor"
  /\ WeatherstackService.getUtcOffset "constructor"
     = WeatherData.PrototypeMember "constructor".
Proof.
  split.
  - apply (timezone_and_offset_agree "WA").
    + intros H. apply includes_In in H. discriminate H.
    + intros H. apply (includes_In ["CA"; "NY"; "FL"; "TX"; "IL"; "AZ"]) in H.
      discriminate H.
  - apply (timezone_and_offset_agree "constructor").
    apply includes_In. reflexivity.
Defined.

(* ================================================================== *)
(** * Further properties: PropertyService *)
(* ================================================================== *)

Section Identifiers.
Import PropertyService.
Context {S : Type} (self : PropertyService.t S).

(** X9.  [getPropertyById]: an identifier that is empty after trimming fails
    before storage is touched; otherwise storage is asked once, for the
    trimmed identifier, an absent record is returned as [null] and not
    thrown, and a storage failure is wrapped with the stage prefix. *)
Theorem getPropertyById_outcomes (id : string) (s : S) :
  (trim id = EmptyString ->
     getPropertyById self id s = mkRun (Threw (Error "Property ID is required")) s [])
  /\ (trim id <> EmptyString ->
      (forall found s',
          Prisma.findUnique (prisma self) (trim id) s = (Returned found, s') ->
          getPropertyById self id s
          = mkRun (Returned found) s' [PrismaFindUnique (trim id)])
      /\ (forall error s',
            Prisma.findUnique (prisma self) (trim id) s = (Threw error, s') ->
            getPropertyById self id s
            = mkRun (Threw (Error ("Failed to fetch property: " ++ messageOrUnknown error)))
                s' [PrismaFindUnique (trim id)])).
Proof.
  unfold getPropertyById. rewrite blank_Some. split.
  - intros E. rewrite E. reflexivity.
  - intros N.
    destruct (isEmpty (trim id)) eqn:E; [apply isEmpty_true in E; contradiction |].
    unfold tryCatch, call.
    split; intros x s' F; rewrite F; reflexivity.
Qed.

(** X10.  Identifiers are compared after trimming: padding an identifier
    with white space changes nothing in [getPropertyById] or
    [deleteProperty]. *)
Theorem identifiers_are_trimmed (id : string) (s : S) :
  getPropertyById self id s = getPropertyById self (trim id) s
  /\ deleteProperty self id s = deleteProperty self (trim id) s.
Proof.
  unfold getPropertyById, deleteProperty.
  rewrite !blank_Some, !trim_idempotent. split; reflexivity.
Qed.

End Identifiers.

Lemma getPropertyById_outcomes_witness :
  PropertyService.getPropertyById (Memory.service "mock") "" (stocked 3)
  = mkRun (Threw (Error "Property ID is required")) (stocked 3) []
  /\ PropertyService.getPropertyById (Memory.service "mock") " prop-9 " (stocked 3)
     = mkRun (Returned None) (stocked 3) [PrismaFindUnique "prop-9"]
  /\ PropertyService.getPropertyById (Memory.service "mock") " prop-2 " (stocked 3)
     = mkRun (Returned (Some (sampleRow 2))) (stocked 3) [PrismaFindUnique "prop-2"].
Proof.
  split; [| split].
  - apply (getPropertyById_outcomes (Memory.service "mock") "" (stocked 3)).
    reflexivity.
  - apply (getPropertyById_outcomes (Memory.service "mock") " prop-9 " (stocked 3)).
    + discriminate.
    + reflexivity.
  - apply (getPropertyById_outcomes (Memory.service "mock") " prop-2 " (stocked 3)).
    + discriminate.
    + reflexivity.
Defined.

Section Failures.
Import ValidationService PropertyService.
Context {S : Type} (host : Host S) (self : PropertyService.t S).

Lemma startsWith_append (p x : string) : startsWith p (p ++ x) = true.
Proof.
  induction p as [|c p IH]; simpl.
  - reflexivity.
  - now rewrite Ascii.eqb_refl, IH.
Qed.

Lemma wrapCreateError_prefix (error : Thrown) :
  exists m, wrapCreateError error = Error m
            /\ startsWith "Failed to create property: " m = true.
Proof.
  unfold wrapCreateError. destruct (instanceofError error).
  - eexists. split; [reflexivity | apply startsWith_append].
  - eexists. split; reflexivity.
Qed.

(** X11.  Whatever goes wrong, [createProperty] throws a plain [Error]: the
    combined validation message when the submission is invalid, and after
    validation a message that starts with "Failed to create property: ".
    When the weather lookup is what failed, storage is not called. *)
Theorem createProperty_failures (input : CreatePropertyInput.t) (s : S) (error : Thrown) :
  outcome (createProperty host self input s) = Threw error ->
  exists m,
    error = Error m
    /\ (validates input = false -> error = validationError input)
    /\ (validates input = true ->
        startsWith "Failed to create property: " m = true
        /\ forall cause,
             outcome (lookupFor host self input s) = Threw cause ->
             error = wrapCreateError cause
             /\ events (createProperty host self input s)
                = lookupEvent input :: events (lookupFor host self input s)).
Proof.
  intros T.
  destruct (validates input) eqn:V.
  - rewrite (createProperty_valid host self input s V) in T |- *. cbv zeta in *.
    destruct (outcome (lookupFor host self input s)) as [wd | e] eqn:O.
    + destruct (coordinatesAreNaN wd).
      * injection T as <-. eexists. split; [reflexivity |].
        split; [discriminate |]. intros _. split; [reflexivity |].
        intros cause C. discriminate C.
      * cbn [outcome] in T.
        destruct (fst (Prisma.create (prisma self) (createData input wd)
                         (final (lookupFor host self input s)))) as [p | e];
          [discriminate T |].
        injection T as <-.
        destruct (wrapCreateError_prefix e) as (m & -> & P).
        exists m. split; [reflexivity |].
        split; [discriminate |]. intros _. split; [exact P |].
        intros cause C. discriminate C.
    + injection T as <-.
      destruct (wrapCreateError_prefix e) as (m & W & P).
      exists m. split; [exact W |].
      split; [discriminate |]. intros _. split; [exact P |].
      intros cause [= <-]. split; reflexivity.
  - rewrite (createProperty_invalid host self input s V) in T.
    injection T as <-.
    eexists. split; [reflexivity |].
    split; [reflexivity | discriminate].
Qed.

(** X12.  Whatever [createProperty] hands to storage is the sanitized
    submission, and it would pass validation as it stands: city and street
    trimmed and not empty, the state one of [US_STATES], the zip code five
    digits. *)
Theorem createProperty_stores_valid_fields (input : CreatePropertyInput.t) (s : S)
    (data : Prisma.CreateData) :
  In (PrismaCreate data) (events (createProperty host self input s)) ->
  submitted data = sanitizeInput input
  /\ isValid (validatePropertyInput (submitted data)) = true
  /\ trim (Prisma.data_city data) = Prisma.data_city data
  /\ Prisma.data_city data <> EmptyString
  /\ trim (Prisma.data_street data) = Prisma.data_street data
  /\ Prisma.data_street data <> EmptyString
  /\ In (Prisma.data_state data) US_STATES
  /\ isFiveDigits (Prisma.data_zipCode data) = true.
Proof.
  intros H.
  destruct (createProperty_create_event host self input s data H)
    as (V & wd & _ & _ & ->).
  assert (E : submitted (createData input wd) = sanitizeInput input) by reflexivity.
  split; [exact E |].
  split; [rewrite E; exact V |].
  apply validates_fields in V. destruct V as (C & St & U & Z).
  unfold createData, sanitizeInput.
  cbn [Prisma.data_city Prisma.data_street Prisma.data_state Prisma.data_zipCode
       CreatePropertyInput.city CreatePropertyInput.street
       CreatePropertyInput.state CreatePropertyInput.zipCode orEmpty].
  rewrite !trimmed_fixed. auto 10.
Qed.

End Failures.

Lemma createProperty_failures_witness :
  events (PropertyService.createProperty Memory.host (Memory.service "test-api-key")
            phoenixInput Memory.offline)
  = [ WeatherLookup "Phoenix" "AZ" "85001";
      HttpGet "https://api.weatherstack.com/current"
        (lookupConfig (WeatherstackService.new "test-api-key") "Phoenix" "AZ" "85001") ].
Proof.
  destruct (createProperty_failures Memory.host (Memory.service "test-api-key")
              phoenixInput Memory.offline
              (Error "Failed to create property: Weatherstack service error: Network Error")
              eq_refl) as (m & _ & _ & H).
  destruct (H eq_refl) as [_ K].
  destruct (K (Error "Weatherstack service error: Network Error") eq_refl) as [_ E].
  rewrite E. reflexivity.
Defined.

Lemma createProperty_stores_valid_fields_witness :
  In (Prisma.data_state (createData paddedState (phoenixSnapshot "33.448" "-112.074")))
     US_STATES.
Proof.
  apply (createProperty_stores_valid_fields Memory.host (Memory.service "test-api-key")
           paddedState (phoenixProvider "33.448" "-112.074")
           (createData paddedState (phoenixSnapshot "33.448" "-112.074"))).
  vm_compute. right. right. left. reflexivity.
Defined.

Section Filtering.
Import PropertyService.
Context {S : Type} (self : PropertyService.t S).



End Filtering.


(* ================================================================== *)
(** * Further properties: the services over the in-memory table *)
(* ================================================================== *)

Section OverMemory.
Import PropertyService.

Lemma noWhiteSpace_trimEnd (s : string) : noWhiteSpace s = true -> trimEnd s = s.
Proof.
  induction s as [|c s IH]; simpl; intros H.
  - reflexivity.
  - apply andb_true_iff in H. destruct H as [C R].
    rewrite (IH R). apply negb_true_iff in C. rewrite C.
    now destruct s.
Qed.

Lemma noWhiteSpace_trim (s : string) : noWhiteSpace s = true -> trim s = s.
Proof.
  intros H. unfold trim.
  assert (T : trimStart s = s).
  { destruct s as [|c s]; simpl in *; [reflexivity |].
    apply andb_true_iff in H. destruct H as [C _].
    apply negb_true_iff in C. now rewrite C. }
  rewrite T. now apply noWhiteSpace_trimEnd.
Qed.

Lemma noWhiteSpace_digits (d : Decimal.uint) :
  noWhiteSpace (NilEmpty.string_of_uint d) = true.
Proof.
  induction d; simpl; auto.
Qed.

Lemma noWhiteSpace_intToString (z : Z) : noWhiteSpace (intToString z) = true.
Proof.
  unfold intToString, NilZero.string_of_int, NilZero.string_of_uint.
  destruct (Z.to_int z) as [d | d]; destruct d; simpl;
    auto using noWhiteSpace_digits.
Qed.

Lemma nextIdentifier_trim (w : Memory.World) :
  trim (nextIdentifier w) = nextIdentifier w
  /\ isEmpty (nextIdentifier w) = false.
Proof.
  split; [| reflexivity].
  apply noWhiteSpace_trim. unfold nextIdentifier. simpl.
  apply noWhiteSpace_intToString.
Qed.

(** The weather lookup leaves the table and the identifier counter alone. *)
Lemma memory_lookup_keeps_table (ws : WeatherstackService.t)
    (city state zipCode : string) (w : Memory.World) :
  let r := WeatherstackService.getCurrentWeather Memory.host ws city state zipCode w in
  Memory.table (final r) = Memory.table w
  /\ Memory.nextId (final r) = Memory.nextId w.
Proof.
  cbv zeta. unfold WeatherstackService.getCurrentWeather.
  destruct (String.eqb (WeatherstackService.apiKey ws) "demo_key"
            || String.eqb (WeatherstackService.apiKey ws) "mock").
  - split; reflexivity.
  - unfold WeatherstackService.liveLookup, tryCatch, bind, call.
    cbn [axios_get Memory.host].
    destruct (Memory.respond w _ _) as [data | e]; cbn [outcome final events].
    + destruct (Axios.error data); cbn; [split; reflexivity |].
      destruct (Axios.success data) as [[|]|]; cbn;
        destruct (Axios.current data); cbn;
        destruct (Axios.location data); cbn; split; reflexivity.
    + split; reflexivity.
Qed.

(** [createProperty] over the in-memory table, by outcome. *)
Lemma createProperty_memory (key : string) (input : CreatePropertyInput.t)
    (w : Memory.World) :
  let run := createProperty Memory.host (Memory.service key) input w in
  match outcome run with
  | Threw _ => Memory.table (final run) = Memory.table w
  | Returned p =>
      Memory.table (final run) = (Memory.table w ++ [p])%list
      /\ Property.id p = nextIdentifier w
      /\ exists weatherData,
           outcome (lookupFor Memory.host (Memory.service key) input w)
           = Returned weatherData
           /\ p = {| Property.id := nextIdentifier w;
                     Property.city := Prisma.data_city (createData input weatherData);
                     Property.street := Prisma.data_street (createData input weatherData);
                     Property.state := Prisma.data_state (createData input weatherData);
                     Property.zipCode := Prisma.data_zipCode (createData input weatherData);
                     Property.lat := Prisma.data_lat (createData input weatherData);
                     Property.long := Prisma.data_long (createData input weatherData);
                     Property.weatherData := weatherData;
                     Property.createdAt :=
                       Memory.clock
                         (final (lookupFor Memory.host (Memory.service key) input w));
                     Property.updatedAt :=
                       Memory.clock
                         (final (lookupFor Memory.host (Memory.service key) input w)) |}
  end.
Proof.
  cbv zeta.
  destruct (validates input) eqn:V.
  - rewrite (createProperty_valid Memory.host (Memory.service key) input w V).
    cbv zeta.
    destruct (memory_lookup_keeps_table (WeatherstackService.new key)
                (orEmpty (CreatePropertyInput.city (ValidationService.sanitizeInput input)))
                (orEmpty (CreatePropertyInput.state (ValidationService.sanitizeInput input)))
                (orEmpty (CreatePropertyInput.zipCode (ValidationService.sanitizeInput input)))
                w) as [T I].
    change (WeatherstackService.getCurrentWeather Memory.host _ _ _ _ w)
      with (lookupFor Memory.host (Memory.service key) input w) in T, I.
    destruct (outcome (lookupFor Memory.host (Memory.service key) input w))
      as [wd | e] eqn:O; [| exact T].
    destruct (coordinatesAreNaN wd); [exact T |].
    cbn [prisma Memory.service Prisma.create Memory.client].
    unfold Memory.create.
    destruct ((2 <? String.length (Prisma.data_state (createData input wd)))%nat
              || (5 <? String.length (Prisma.data_zipCode (createData input wd)))%nat);
      cbn [fst snd outcome final Memory.table]; [exact T |].
    rewrite T. unfold nextIdentifier. rewrite I.
    split; [reflexivity |]. split; [reflexivity |].
    exists wd. split; reflexivity.
  - rewrite (createProperty_invalid Memory.host (Memory.service key) input w V).
    reflexivity.
Qed.

(** [getPropertyById] over the in-memory table. *)
Lemma getPropertyById_memory (key id : string) (w : Memory.World) :
  getPropertyById (Memory.service key) id w
  = if isEmpty (trim id)
    then mkRun (Threw (Error "Property ID is required")) w []
    else mkRun (Returned (find (Memory.hasId (trim id)) (Memory.table w))) w
           [PrismaFindUnique (trim id)].
Proof.
  unfold getPropertyById. rewrite blank_Some.
  destruct (isEmpty (trim id)); reflexivity.
Qed.

(** [deleteProperty] over the in-memory table. *)
Lemma deleteProperty_memory (key id : string) (w : Memory.World) :
  deleteProperty (Memory.service key) id w
  = if isEmpty (trim id)
    then mkRun (Threw (Error "Property ID is required")) w []
    else match find (Memory.hasId (trim id)) (Memory.table w) with
         | Some _ =>
             mkRun (Returned true)
               {| Memory.table :=
                    filter (fun q => negb (Memory.hasId (trim id) q)) (Memory.table w);
                  Memory.clock := Memory.clock w;
                  Memory.nextId := Memory.nextId w;
                  Memory.respond := Memory.respond w;
                  Memory.draw := Memory.draw w |}
               [PrismaFindUnique (trim id); PrismaDelete (trim id)]
         | None =>
             mkRun (Threw (Error "Property not found")) w [PrismaFindUnique (trim id)]
         end.
Proof.
  unfold deleteProperty. rewrite blank_Some.
  destruct (isEmpty (trim id)); [reflexivity |].
  unfold tryCatch, bind, call.
  cbn [prisma Memory.service Prisma.findUnique Prisma.delete Memory.client].
  unfold Memory.findUnique, Memory.delete. cbn [fst snd outcome final events].
  destruct (find (Memory.hasId (trim id)) (Memory.table w)) as [p |] eqn:F.
  - cbn [fst snd outcome final events]. rewrite F. reflexivity.
  - reflexivity.
Qed.

(** X14.  Over the in-memory table [createProperty] writes all or nothing:
    when it throws, the table is as it was; when it returns a record, that
    record is the one row added, at the end, under the next identifier. *)
Theorem createProperty_all_or_nothing (key : string) (input : CreatePropertyInput.t)
    (w : Memory.World) :
  let run := createProperty Memory.host (Memory.service key) input w in
  (forall error, outcome run = Threw error ->
     Memory.table (final run) = Memory.table w)
  /\ (forall p, outcome run = Returned p ->
        Memory.table (final run) = (Memory.table w ++ [p])%list
        /\ Property.id p = nextIdentifier w
        /\ In (Property.state p) US_STATES
        /\ isFiveDigits (Property.zipCode p) = true).
Proof.
  cbv zeta.
  pose proof (createProperty_memory key input w) as A. cbv zeta in A.
  split.
  - intros error O. rewrite O in A. exact A.
  - intros p O. rewrite O in A. destruct A as (T & I & wd & _ & P).
    split; [exact T |]. split; [exact I |].
    assert (V : validates input = true).
    { destruct (validates input) eqn:V; [reflexivity |].
      rewrite (createProperty_invalid Memory.host (Memory.service key) input w V) in O.
      discriminate O. }
    apply validates_fields in V. destruct V as (_ & _ & U & Z).
    rewrite P.
    cbn [Property.state Property.zipCode createData ValidationService.sanitizeInput
         Prisma.data_state Prisma.data_zipCode
         CreatePropertyInput.state CreatePropertyInput.zipCode orEmpty].
    split; assumption.
Qed.

Lemma find_last (id : string) (rows : list Property.t) (p : Property.t) :
  find (Memory.hasId id) rows = None ->
  Property.id p = id ->
  find (Memory.hasId id) (rows ++ [p]) = Some p.
Proof.
  intros N E. induction rows as [|q rows IH]; simpl in *.
  - unfold Memory.hasId. rewrite E, String.eqb_refl. reflexivity.
  - destruct (Memory.hasId id q); [discriminate N | now apply IH].
Qed.

(** X15.  Create, then fetch: over the in-memory table, when the next
    identifier is unused, the record that [createProperty] returns is the
    record that [getPropertyById] finds under its identifier. *)
Theorem create_then_get (key : string) (input : CreatePropertyInput.t)
    (w : Memory.World) (p : Property.t) :
  fresh w ->
  outcome (createProperty Memory.host (Memory.service key) input w) = Returned p ->
  getPropertyById (Memory.service key) (Property.id p)
    (final (createProperty Memory.host (Memory.service key) input w))
  = mkRun (Returned (Some p))
      (final (createProperty Memory.host (Memory.service key) input w))
      [PrismaFindUnique (Property.id p)].
Proof.
  intros F O.
  pose proof (createProperty_memory key input w) as A. cbv zeta in A.
  rewrite O in A. destruct A as (T & I & _).
  destruct (nextIdentifier_trim w) as [Tr Ne].
  rewrite getPropertyById_memory, I, Tr, Ne, T.
  now rewrite (find_last (nextIdentifier w) (Memory.table w) p F I).
Qed.

Lemma find_filter_out (id : string) (rows : list Property.t) :
  find (Memory.hasId id) (filter (fun q => negb (Memory.hasId id q)) rows) = None.
Proof.
  induction rows as [|q rows IH]; simpl.
  - reflexivity.
  - destruct (Memory.hasId id q) eqn:E; simpl; [exact IH | now rewrite E].
Qed.

(** X16.  Delete, then fetch: over the in-memory table, once
    [deleteProperty] has returned, the identifier was stored before, every
    row with it is gone, the other rows are untouched and in their order,
    and [getPropertyById] finds nothing under it. *)
Theorem delete_then_get (key id : string) (w : Memory.World) (b : bool) :
  outcome (deleteProperty (Memory.service key) id w) = Returned b ->
  let w' := final (deleteProperty (Memory.service key) id w) in
  (exists p, In p (Memory.table w) /\ Property.id p = trim id)
  /\ Memory.table w'
     = filter (fun q => negb (String.eqb (Property.id q) (trim id))) (Memory.table w)
  /\ getPropertyById (Memory.service key) id w'
     = mkRun (Returned None) w' [PrismaFindUnique (trim id)].
Proof.
  cbv zeta. rewrite deleteProperty_memory.
  destruct (isEmpty (trim id)) eqn:E; [discriminate |].
  destruct (find (Memory.hasId (trim id)) (Memory.table w)) as [p |] eqn:F;
    [| discriminate].
  intros _. cbn [final].
  split; [| split].
  - exists p. apply find_some in F. destruct F as [I H].
    unfold Memory.hasId in H. apply String.eqb_eq in H. now split.
  - reflexivity.
  - rewrite getPropertyById_memory, E. cbn [Memory.table].
    now rewrite find_filter_out.
Qed.





End OverMemory.

Lemma createProperty_all_or_nothing_witness :
  Memory.table
    (final (PropertyService.createProperty Memory.host (Memory.service "test-api-key")
              phoenixInput (phoenixProvider "33.448" "-112.074")))
  = [phoenixRow]
  /\ Property.id phoenixRow = "prop-1".
Proof.
  destruct (proj2 (createProperty_all_or_nothing "test-api-key" phoenixInput
                     (phoenixProvider "33.448" "-112.074")) phoenixRow)
    as (T & I & _).
  - vm_compute. reflexivity.
  - split; [exact T | exact I].
Defined.

Lemma create_then_get_witness :
  PropertyService.getPropertyById (Memory.service "test-api-key") (Property.id phoenixRow)
    (final (PropertyService.createProperty Memory.host (Memory.service "test-api-key")
              phoenixInput (phoenixProvider "33.448" "-112.074")))
  = mkRun (Returned (Some phoenixRow))
      (final (PropertyService.createProperty Memory.host (Memory.service "test-api-key")
                phoenixInput (phoenixProvider "33.448" "-112.074")))
      [PrismaFindUnique (Property.id phoenixRow)].
Proof.
  apply (create_then_get "test-api-key" phoenixInput
           (phoenixProvider "33.448" "-112.074") phoenixRow).
  - reflexivity.
  - vm_compute. reflexivity.
Defined.

Lemma delete_then_get_witness :
  PropertyService.getPropertyById (Memory.service "mock") " prop-2 "
    (final (PropertyService.deleteProperty (Memory.service "mock") " prop-2 " (stocked 3)))
  = mkRun (Returned None)
      (final (PropertyService.deleteProperty (Memory.service "mock") " prop-2 " (stocked 3)))
      [PrismaFindUnique (trim " prop-2 ")].
Proof.
  assert (O : outcome (PropertyService.deleteProperty (Memory.service "mock")
                         " prop-2 " (stocked 3)) = Returned true)
    by (vm_compute; reflexivity).
  exact (proj2 (proj2 (delete_then_get "mock" " prop-2 " (stocked 3) true O))).
Defined.


(* ================================================================== *)
(** * Further properties: the resolvers *)
(* ================================================================== *)

Section ResolverFacts.
Import Resolvers.
Context {S : Type} (host : Host S) (self : PropertyService.t S).

Lemma getProperties_run (filters : PropertyFilters.t) (s : S) :
  PropertyService.getProperties self filters s
  = let stored :=
      Prisma.findMany (PropertyService.prisma self) (findManyArgs filters) s in
    mkRun
      match fst stored with
      | Returned rows => Returned rows
      | Threw e =>
          Threw (Error ("Failed to fetch properties: "
                        ++ PropertyService.messageOrUnknown e))
      end
      (snd stored) [PrismaFindMany (findManyArgs filters)].
Proof.
  unfold PropertyService.getProperties, tryCatch, call. fold (findManyArgs filters).
  destruct (Prisma.findMany (PropertyService.prisma self) (findManyArgs filters) s)
    as [[rows | e] s']; reflexivity.
Qed.

Lemma getPropertyById_run (id : string) (s : S) :
  PropertyService.getPropertyById self id s
  = if isEmpty (trim id)
    then mkRun (Threw (Error "Property ID is required")) s []
    else
      let stored := Prisma.findUnique (PropertyService.prisma self) (trim id) s in
      mkRun
        match fst stored with
        | Returned found => Returned found
        | Threw e =>
            Threw (Error ("Failed to fetch property: "
                          ++ PropertyService.messageOrUnknown e))
        end
        (snd stored) [PrismaFindUnique (trim id)].
Proof.
  unfold PropertyService.getPropertyById. rewrite blank_Some.
  destruct (isEmpty (trim id)); [reflexivity |].
  unfold tryCatch, call.
  destruct (Prisma.findUnique (PropertyService.prisma self) (trim id) s)
    as [[found | e] s']; reflexivity.
Qed.

Lemma deleteProperty_run (id : string) (s : S) :
  PropertyService.deleteProperty self id s
  = if isEmpty (trim id)
    then mkRun (Threw (Error "Property ID is required")) s []
    else
      let looked := Prisma.findUnique (PropertyService.prisma self) (trim id) s in
      match fst looked with
      | Returned None =>
          mkRun (Threw (Error "Property not found")) (snd looked)
            [PrismaFindUnique (trim id)]
      | Returned (Some _) =>
          let deleted :=
            Prisma.delete (PropertyService.prisma self) (trim id) (snd looked) in
          mkRun
            match fst deleted with
            | Returned _ => Returned true
            | Threw e => Threw (wrapDeleteError e)
            end
            (snd deleted) [PrismaFindUnique (trim id); PrismaDelete (trim id)]
      | Threw e =>
          mkRun (Threw (wrapDeleteError e)) (snd looked) [PrismaFindUnique (trim id)]
      end.
Proof.
  unfold PropertyService.deleteProperty. rewrite blank_Some.
  destruct (isEmpty (trim id)); [reflexivity |].
  unfold tryCatch, bind, call, wrapDeleteError.
  destruct (Prisma.findUnique (PropertyService.prisma self) (trim id) s)
    as [[[p |] | e] s1]; cbn.
  - destruct (Prisma.delete (PropertyService.prisma self) (trim id) s1)
      as [[q | e] s2]; cbn; [reflexivity |].
    destruct (instanceofError e && String.eqb (message e) "Property not found");
      reflexivity.
  - reflexivity.
  - destruct (instanceofError e && String.eqb (message e) "Property not found");
      reflexivity.
Qed.

Lemma createProperty_thrown (input : CreatePropertyInput.t) (s : S) (error : Thrown) :
  outcome (PropertyService.createProperty host self input s) = Threw error ->
  if validates input
  then exists cause, error = wrapCreateError cause
  else error = validationError input.
Proof.
  intros T.
  destruct (validates input) eqn:V.
  - rewrite (createProperty_valid host self input s V) in T. cbv zeta in T.
    destruct (outcome (lookupFor host self input s)) as [wd | e].
    + destruct (coordinatesAreNaN wd).
      * injection T as <-.
        now exists (Error "Invalid coordinates received from weather service").
      * cbn [outcome] in T.
        destruct (fst (Prisma.create (PropertyService.prisma self) (createData input wd)
                         (final (lookupFor host self input s)))) as [p | e];
          [discriminate T |].
        injection T as <-. now exists e.
    + injection T as <-. now exists e.
  - rewrite (createProperty_invalid host self input s V) in T.
    now injection T as <-.
Qed.

Lemma startsWith_twice (p x : string) : startsWith (p ++ p) (p ++ (p ++ x)) = true.
Proof.
  rewrite <- append_associative. apply startsWith_append.
Qed.

(** X18.  The [properties] query always asks storage for at most a hundred
    rows: a missing limit and a limit of zero both mean fifty, any other
    limit is capped at a hundred; a missing offset means zero; with no
    sort arguments the newest rows come first.  Its only failure code is
    PROPERTIES_FETCH_ERROR, on a message that carries the stage prefix
    twice. *)
Theorem resolver_properties_arguments (args : PropertiesArgs.t) (s : S) :
  let r := properties self args s in
  let findArgs := findManyArgs (filtersOf args) in
  calls r = [PrismaFindMany findArgs]
  /\ Prisma.take findArgs <= 100
  /\ (PropertiesArgs.limit args = None \/ PropertiesArgs.limit args = Some 0 ->
      Prisma.take findArgs = 50)
  /\ (forall n, PropertiesArgs.limit args = Some n -> n <> 0 ->
      Prisma.take findArgs = Z.min n 100)
  /\ (PropertiesArgs.offset args = None -> Prisma.skip findArgs = 0)
  /\ (forall n, PropertiesArgs.offset args = Some n -> Prisma.skip findArgs = n)
  /\ (PropertiesArgs.sortBy args = None -> PropertiesArgs.sortOrder args = None ->
      Prisma.orderBy findArgs = newestFirst)
  /\ (forall e, response r = Failure e ->
      GraphQLError.code e = "PROPERTIES_FETCH_ERROR"
      /\ startsWith "Failed to fetch properties: Failed to fetch properties: "
           (GraphQLError.message e) = true).
Proof.
  cbv zeta. unfold properties, settle. cbn [calls response].
  rewrite getProperties_run. cbv zeta. cbn [events outcome].
  unfold findManyArgs, filtersOf.
  cbn [Prisma.take Prisma.skip Prisma.orderBy PropertyFilters.limit PropertyFilters.offset
       PropertyFilters.sortBy PropertyFilters.sortOrder PropertyService.withDefault].
  split; [reflexivity |].
  split; [apply Z.le_min_r |].
  split; [intros [-> | ->]; reflexivity |].
  split.
  { intros n -> N. unfold orNumber.
    destruct (Z.eqb_spec n 0); [contradiction | reflexivity]. }
  split; [intros ->; reflexivity |].
  split.
  { intros n ->. unfold orNumber. destruct (Z.eqb_spec n 0); congruence. }
  split; [intros -> ->; reflexivity |].
  intros e.
  destruct (fst (Prisma.findMany _ _ s)) as [rows | cause]; [discriminate |].
  intros [= <-]. cbn [GraphQLError.code GraphQLError.message].
  split; [reflexivity |].
  apply (startsWith_twice "Failed to fetch properties: ").
Qed.

(** X19.  The [property] query: an identifier that is blank fails with
    PROPERTY_FETCH_ERROR before storage is asked; a stored record is
    returned; an absent one is PROPERTY_NOT_FOUND, not a fetch error; a
    storage failure is PROPERTY_FETCH_ERROR with the stage prefix twice. *)
Theorem resolver_property_outcomes (id : string) (s : S) :
  let r := property self id s in
  (trim id = EmptyString ->
     r = mkResolved
           (Failure (GraphQLError.mk "Failed to fetch property: Property ID is required"
                       "PROPERTY_FETCH_ERROR")) s [])
  /\ (trim id <> EmptyString ->
      (forall p s',
          Prisma.findUnique (PropertyService.prisma self) (trim id) s
          = (Returned (Some p), s') ->
          r = mkResolved (Data p) s' [PrismaFindUnique (trim id)])
      /\ (forall s',
            Prisma.findUnique (PropertyService.prisma self) (trim id) s
            = (Returned None, s') ->
            r = mkResolved (Failure notFound) s' [PrismaFindUnique (trim id)])
      /\ (forall error s',
            Prisma.findUnique (PropertyService.prisma self) (trim id) s
            = (Threw error, s') ->
            r = mkResolved
                  (Failure
                     (GraphQLError.mk
                        ("Failed to fetch property: Failed to fetch property: "
                         ++ PropertyService.messageOrUnknown error)
                        "PROPERTY_FETCH_ERROR"))
                  s' [PrismaFindUnique (trim id)])).
Proof.
  cbv zeta. unfold property, settle. rewrite getPropertyById_run. split.
  - intros ->. reflexivity.
  - intros N.
    destruct (isEmpty (trim id)) eqn:E; [apply isEmpty_true in E; contradiction |].
    cbv zeta.
    split; [| split].
    + intros p s' F. rewrite F. reflexivity.
    + intros s' F. rewrite F. reflexivity.
    + intros error s' F. rewrite F. reflexivity.
Qed.

(** X20.  The [createProperty] mutation: every failure carries the code
    PROPERTY_CREATE_ERROR and a message with the stage prefix, once before
    the validation message and twice before anything that failed later; a
    submission that does not validate is refused without a call; a record
    is returned only as storage returned it for the sanitized row. *)
Theorem resolver_createProperty_outcomes (input : CreatePropertyInput.t) (s : S) :
  let r := createProperty host self input s in
  (validates input = false ->
     r = mkResolved
           (Failure
              (GraphQLError.mk
                 ("Failed to create property: " ++ message (validationError input))
                 "PROPERTY_CREATE_ERROR")) s [])
  /\ (forall e, response r = Failure e ->
      GraphQLError.code e = "PROPERTY_CREATE_ERROR"
      /\ startsWith "Failed to create property: " (GraphQLError.message e) = true
      /\ (validates input = true ->
          startsWith "Failed to create property: Failed to create property: "
            (GraphQLError.message e) = true))
  /\ (forall p, response r = Data p ->
      validates input = true
      /\ exists weatherData,
           outcome (lookupFor host self input s) = Returned weatherData
           /\ Prisma.create (PropertyService.prisma self) (createData input weatherData)
                (final (lookupFor host self input s))
              = (Returned p, world r)
           /\ calls r
              = (lookupEvent input :: events (lookupFor host self input s)
                 ++ [PrismaCreate (createData input weatherData)])%list).
Proof.
  cbv zeta. unfold createProperty, settle. cbn [response world calls].
  split; [| split].
  - intros V. rewrite (createProperty_invalid host self input s V). reflexivity.
  - intros e.
    destruct (outcome (PropertyService.createProperty host self input s))
      as [p | error] eqn:O; [discriminate |].
    intros [= <-]. cbn [GraphQLError.code GraphQLError.message].
    split; [reflexivity |].
    split;
      [exact (startsWith_append "Failed to create property: "
                (PropertyService.messageOrUnknown error)) |].
    intros V. apply createProperty_thrown in O. rewrite V in O.
    destruct O as [cause ->]. unfold wrapCreateError.
    destruct (instanceofError cause).
    + exact (startsWith_twice "Failed to create property: " (message cause)).
    + reflexivity.
  - intros p.
    destruct (validates input) eqn:V.
    + rewrite (createProperty_valid host self input s V). cbv zeta.
      destruct (outcome (lookupFor host self input s)) as [wd | e] eqn:O;
        [| discriminate].
      destruct (coordinatesAreNaN wd); [discriminate |].
      cbn [outcome final events].
      destruct (Prisma.create (PropertyService.prisma self) (createData input wd)
                  (final (lookupFor host self input s))) as [[q | e] s'] eqn:C;
        cbn [fst snd]; [| discriminate].
      intros [= <-]. split; [reflexivity |]. exists wd.
      split; [reflexivity |]. split; [exact C | reflexivity].
    + rewrite (createProperty_invalid host self input s V). discriminate.
Qed.

(** X21.  The [deleteProperty] mutation: a blank identifier is a
    PROPERTY_DELETE_ERROR raised before storage is asked; an identifier
    that storage does not know is PROPERTY_NOT_FOUND; [true] is returned
    only after the lookup and the delete, in that order; and no failure
    has another code than these two. *)
Theorem resolver_deleteProperty_outcomes (id : string) (s : S) :
  let r := deleteProperty self id s in
  (trim id = EmptyString ->
     r = mkResolved
           (Failure (GraphQLError.mk "Failed to delete property: Property ID is required"
                       "PROPERTY_DELETE_ERROR")) s [])
  /\ (trim id <> EmptyString ->
      forall s',
        Prisma.findUnique (PropertyService.prisma self) (trim id) s = (Returned None, s') ->
        r = mkResolved (Failure notFound) s' [PrismaFindUnique (trim id)])
  /\ (forall b, response r = Data b ->
      b = true /\ calls r = [PrismaFindUnique (trim id); PrismaDelete (trim id)])
  /\ (forall e, response r = Failure e ->
      e = notFound
      \/ GraphQLError.code e = "PROPERTY_DELETE_ERROR"
         /\ startsWith "Failed to delete property: " (GraphQLError.message e) = true).
Proof.
  cbv zeta. unfold deleteProperty, settle. rewrite deleteProperty_run.
  assert (W : forall error e,
             Failure (A := bool)
               (if instanceofError (wrapDeleteError error)
                   && String.eqb (message (wrapDeleteError error)) "Property not found"
                then notFound
                else GraphQLError.mk
                       ("Failed to delete property: "
                        ++ PropertyService.messageOrUnknown (wrapDeleteError error))
                       "PROPERTY_DELETE_ERROR") = Failure e ->
             e = notFound
             \/ GraphQLError.code e = "PROPERTY_DELETE_ERROR"
                /\ startsWith "Failed to delete property: " (GraphQLError.message e) = true).
  { intros error e.
    destruct (instanceofError (wrapDeleteError error)
              && String.eqb (message (wrapDeleteError error)) "Property not found");
      intros [= <-]; [now left | right].
    split; [reflexivity |].
    exact (startsWith_append "Failed to delete property: "
             (PropertyService.messageOrUnknown (wrapDeleteError error))). }
  split; [| split; [| split]].
  - intros ->. reflexivity.
  - intros N s' F.
    destruct (isEmpty (trim id)) eqn:E; [apply isEmpty_true in E; contradiction |].
    cbv zeta. rewrite F. reflexivity.
  - intros b.
    destruct (isEmpty (trim id)); [discriminate |]. cbv zeta.
    destruct (fst (Prisma.findUnique (PropertyService.prisma self) (trim id) s))
      as [[p |] | e]; cbn [outcome events response calls]; try discriminate.
    destruct (fst (Prisma.delete _ _ _)) as [q | e]; [| discriminate].
    intros [= <-]. split; reflexivity.
  - intros e.
    destruct (isEmpty (trim id)).
    + cbn. intros [= <-]. right. split; reflexivity.
    + cbv zeta.
      destruct (fst (Prisma.findUnique (PropertyService.prisma self) (trim id) s))
        as [[p |] | error]; cbn [outcome events response calls].
      * destruct (fst (Prisma.delete _ _ _)) as [q | error]; [discriminate |].
        apply W.
      * cbn. intros [= <-]. now left.
      * apply W.
Qed.

End ResolverFacts.

Lemma resolver_properties_arguments_witness :
  Prisma.take (findManyArgs (Resolvers.filtersOf limitZero)) = 50.
Proof.
  destruct (resolver_properties_arguments (Memory.service "mock") limitZero (stocked 3))
    as (_ & _ & H & _).
  apply H. right. reflexivity.
Defined.

Lemma resolver_property_outcomes_witness :
  Resolvers.property (Memory.service "mock") " prop-9 " (stocked 3)
  = Resolvers.mkResolved (Resolvers.Failure Resolvers.notFound) (stocked 3)
      [PrismaFindUnique (trim " prop-9 ")].
Proof.
  apply (resolver_property_outcomes (Memory.service "mock") " prop-9 " (stocked 3)).
  - discriminate.
  - reflexivity.
Defined.

Lemma resolver_createProperty_outcomes_witness :
  Resolvers.createProperty Memory.host (Memory.service "test-api-key")
    emptyCityInput Memory.offline
  = Resolvers.mkResolved
      (Resolvers.Failure
         (Resolvers.GraphQLError.mk
            ("Failed to create property: " ++ message (validationError emptyCityInput))
            "PROPERTY_CREATE_ERROR")) Memory.offline [].
Proof.
  apply (resolver_createProperty_outcomes Memory.host (Memory.service "test-api-key")
           emptyCityInput Memory.offline).
  reflexivity.
Defined.

Lemma resolver_deleteProperty_outcomes_witness :
  Resolvers.deleteProperty (Memory.service "mock") "   " (stocked 3)
  = Resolvers.mkResolved
      (Resolvers.Failure
         (Resolvers.GraphQLError.mk "Failed to delete property: Property ID is required"
            "PROPERTY_DELETE_ERROR")) (stocked 3) [].
Proof.
  apply (resolver_deleteProperty_outcomes (Memory.service "mock") "   " (stocked 3)).
  reflexivity.
Defined.

(* ================================================================== *)
(** * Further properties: createProperty with a mock key *)
(* ================================================================== *)

Section MockMode.
Import WeatherstackService.
Context {S : Type} (host : Host S) (self : PropertyService.t S).

Lemma yields_ret {A : Type} (a : A) (P : A -> Prop) : P a -> yields (@ret S A a) P.
Proof. intros H s. now exists a. Qed.

Lemma yields_bind_ask {A B : Type} (f : S -> A * S) (k : A -> M S B) (P : B -> Prop) :
  (forall a, yields (k a) P) -> yields (bind (ask f) k) P.
Proof.
  intros H s. unfold bind, ask. destruct (f s) as [a s']. cbn [outcome final].
  destruct (H a s') as (b & E & Pb). exists b. now rewrite E.
Qed.

Lemma getMockWeatherData_location (ws : t) (city state zipCode : string) :
  yields (getMockWeatherData host ws city state zipCode)
    (fun weatherData =>
       WeatherData.lat (WeatherData.location weatherData)
       = Number_toString host (lat (generateCoordinates city state))
       /\ WeatherData.lon (WeatherData.location weatherData)
          = Number_toString host (long (generateCoordinates city state))).
Proof.
  unfold getMockWeatherData.
  repeat (apply yields_bind_ask; intros ?).
  apply yields_ret. split; reflexivity.
Qed.

Lemma compared_is_not_NaN (a x : number) : (a <=? x)%float = true -> isNaN x = false.
Proof.
  unfold isNaN, PrimFloat.is_nan.
  rewrite FloatAxioms.leb_spec, FloatAxioms.eqb_spec. unfold SFleb, SFeqb.
  destruct (Prim2SF x) as [sx | sx | | sx mx ex].
  - reflexivity.
  - destruct sx; reflexivity.
  - destruct (Prim2SF a); discriminate.
  - intros _. cbn [SFcompare].
    rewrite Z.compare_refl.
    change (PosDef.Pos.compare_cont Eq mx mx) with (Pos.compare mx mx).
    rewrite Pos.compare_refl. destruct sx; reflexivity.
Qed.

(** X22.  With a mock key, and a runtime whose printed numbers read back as
    themselves, a submission that validates always reaches storage, without
    a network request: the calls are the weather lookup and one write, and
    the row written carries the sanitized fields and the coordinates
    derived from the city name, the latitude in [24, 49) and the longitude
    in [-125, -66). *)
Theorem createProperty_mock_mode (input : CreatePropertyInput.t) (s : S) :
  isMockKey (PropertyService.weatherService self) ->
  validates input = true ->
  printsBack host (mockCoordinates input) ->
  exists data,
    events (PropertyService.createProperty host self input s)
    = [lookupEvent input; PrismaCreate data]
    /\ submitted data = ValidationService.sanitizeInput input
    /\ Prisma.data_lat data = lat (mockCoordinates input)
    /\ Prisma.data_long data = long (mockCoordinates input)
    /\ (24 <=? Prisma.data_lat data)%float = true
    /\ (Prisma.data_lat data <? 49)%float = true
    /\ (-125 <=? Prisma.data_long data)%float = true
    /\ (Prisma.data_long data <? -66)%float = true.
Proof.
  intros K V [Plat Plong].
  set (city := orEmpty (CreatePropertyInput.city (ValidationService.sanitizeInput input))).
  set (state := orEmpty (CreatePropertyInput.state (ValidationService.sanitizeInput input))).
  set (zipCode :=
         orEmpty (CreatePropertyInput.zipCode (ValidationService.sanitizeInput input))).
  assert (L : lookupFor host self input s
              = getMockWeatherData host (PropertyService.weatherService self)
                  city state zipCode s).
  { unfold lookupFor, getCurrentWeather. unfold isMockKey in K.
    apply mock_key_cases in K. now rewrite K. }
  destruct (getMockWeatherData_location (PropertyService.weatherService self)
              city state zipCode s) as (wd & O & Elat & Elon).
  change (generateCoordinates city state) with (mockCoordinates input) in Elat, Elon.
  pose proof (reduced_hash_range (cityHash city) 25000 ltac:(lia)) as Hlat.
  pose proof (reduced_hash_range (cityHash city) 59000 ltac:(lia)) as Hlong.
  destruct (latOf_range _ Hlat) as (_ & L1 & U1).
  destruct (longOf_range _ Hlong) as (_ & L2 & U2).
  change (latOf (Z.abs (Z.rem (cityHash city) 25000)))
    with (lat (mockCoordinates input)) in L1, U1.
  change (longOf (Z.abs (Z.rem (cityHash city) 59000)))
    with (long (mockCoordinates input)) in L2, U2.
  assert (Dlat : Prisma.data_lat (createData input wd) = lat (mockCoordinates input)).
  { unfold createData. cbn [Prisma.data_lat]. now rewrite Elat. }
  assert (Dlong : Prisma.data_long (createData input wd) = long (mockCoordinates input)).
  { unfold createData. cbn [Prisma.data_long]. now rewrite Elon. }
  assert (N : coordinatesAreNaN wd = false).
  { unfold coordinatesAreNaN. rewrite Elat, Elon, Plat, Plong.
    now rewrite (compared_is_not_NaN _ _ L1), (compared_is_not_NaN _ _ L2). }
  exists (createData input wd).
  rewrite (createProperty_valid host self input s V). cbv zeta.
  rewrite L, O, N. cbn [events].
  rewrite (getMockWeatherData_silent host (PropertyService.weatherService self)
             city state zipCode s).
  rewrite Dlat, Dlong.
  split; [reflexivity |]. split; [reflexivity |]. auto 10.
Qed.

End MockMode.

Lemma createProperty_mock_mode_witness :
  exists data,
    events (PropertyService.createProperty (printing "-105.679" "41.321")
              (Memory.service "mock") phoenixInput Memory.offline)
    = [lookupEvent phoenixInput; PrismaCreate data]
    /\ submitted data = ValidationService.sanitizeInput phoenixInput
    /\ Prisma.data_lat data = WeatherstackService.lat (mockCoordinates phoenixInput)
    /\ Prisma.data_long data = WeatherstackService.long (mockCoordinates phoenixInput)
    /\ (24 <=? Prisma.data_lat data)%float = true
    /\ (Prisma.data_lat data <? 49)%float = true
    /\ (-125 <=? Prisma.data_long data)%float = true
    /\ (Prisma.data_long data <? -66)%float = true.
Proof.
  apply (createProperty_mock_mode (printing "-105.679" "41.321") (Memory.service "mock")
           phoenixInput Memory.offline).
  - right. reflexivity.
  - reflexivity.
  - split; vm_compute; reflexivity.
Defined.
